(** * stl_ndr_bench_tool: the NDR benchmark command-line driver

    A shallow embedding of
    [scripts/automation/trex_control_plane/stl/examples/stl_ndr_bench_tool.py].

    The tool is orchestration over the stateless client library and the
    [ndr_bench] module.  Every call that leaves the file is recorded as an
    [event]; what the call answers is read from a [World], so each statement
    below holds for every behaviour of the library and of the search. *)

From Stdlib Require Import ZArith List String Ascii Bool Lia.
Import ListNotations.
Local Open Scope string_scope.
Local Open Scope list_scope.
Local Open Scope Z_scope.

(** ** Python values that travel through the tool *)

(** Arguments are untyped in the source; these are the shapes argparse can
    hand over.  A float is [m * 2^e]. *)
Inductive value : Type :=
| VNone
| VBool (b : bool)
| VInt (z : Z)
| VFloat (m e : Z)
| VStr (s : string).

(** Python truth value testing ([if x:]). *)
Definition truthy (v : value) : bool :=
  match v with
  | VNone => false
  | VBool b => b
  | VInt z => negb (z =? 0)
  | VFloat m _ => negb (m =? 0)
  | VStr s => negb (String.eqb s EmptyString)
  end.

(** [v == s] for a string literal [s]. *)
Definition eq_str (v : value) (s : string) : bool :=
  match v with
  | VStr s' => String.eqb s' s
  | _ => false
  end.

(** [ports_list] is [None] or a list of ints ([type=int, nargs='*']). *)
Definition ports_arg : Type := option (list Z).

Definition truthy_list (p : ports_arg) : bool :=
  match p with
  | Some (_ :: _) => true
  | _ => false
  end.

Definition list_of (p : ports_arg) : list Z :=
  match p with
  | Some l => l
  | None => []
  end.

(** ** Stream descriptors *)

Inductive layer : Type :=
| Ether
| IP (src dst : string)
| UDP (dport sport : Z)
| Raw (payload : string).

(** [STLPktBuilder(pkt = l1 / l2 / ...)] *)
Record STLPktBuilder : Type := { pkt : list layer }.

Inductive flow_stats_t : Type :=
| STLFlowStats (pg_id : Z)
| STLFlowLatencyStats (pg_id : Z).

Inductive tx_mode : Type :=
| STLTXCont (pps : Z)
| STLTXSingleBurst (total_pkts pps : Z)
| STLTXMultiBurst (pkts_per_burst ibg count pps : Z).

Record STLStream : Type := {
  name : option string;
  packet : STLPktBuilder;
  flow_stats : option flow_stats_t;
  mode : tx_mode
}.

(** [STLBench.ip_range]: [{'src': {'start', 'end'}, 'dst': {'start', 'end'}}] *)
Record ip_range_t : Type := {
  src_start : value;
  src_end : value;
  dst_start : value;
  dst_end : value
}.

Definition set_src_start (r : ip_range_t) (v : value) : ip_range_t :=
  {| src_start := v; src_end := src_end r; dst_start := dst_start r; dst_end := dst_end r |}.
Definition set_src_end (r : ip_range_t) (v : value) : ip_range_t :=
  {| src_start := src_start r; src_end := v; dst_start := dst_start r; dst_end := dst_end r |}.
Definition set_dst_start (r : ip_range_t) (v : value) : ip_range_t :=
  {| src_start := src_start r; src_end := src_end r; dst_start := v; dst_end := dst_end r |}.
Definition set_dst_end (r : ip_range_t) (v : value) : ip_range_t :=
  {| src_start := src_start r; src_end := src_end r; dst_start := dst_start r; dst_end := v |}.

(** The table of [stl_map_ports]; the tool reads only ['bi'], the list of
    bidirectional pairs. *)
Record port_table : Type := {
  map_ : list (Z * Z);
  bi : list (Z * Z);
  unmapped : list Z
}.

(** ** The configuration object *)

Module Cfg.
(** The keyword arguments of [ndr.NdrBenchConfig(...)], lines 82-87. *)
Record t : Type := {
  ports : list Z;
  pkt_size : value;
  vm : value;
  iteration_duration : value;
  q_ful_resolution : value;
  first_run_duration : value;
  pdr : value;
  pdr_error : value;
  ndr_results : value;
  latency : value;
  core_mask : value;
  verbose : value;
  drop_rate_interval : value
}.
End Cfg.

(** ** Exceptions, events and the world *)

(** What a library call can raise: the client error [STLError] (with
    [msg] what [str(e)] gives), or some other [Exception].  [SystemExit] is
    raised by [sys.exit] only. *)
Inductive lib_exn : Type :=
| LibSTLError (msg : string)
| LibOther (cls msg : string).

Inductive exn : Type :=
| STLError (msg : string)
| OtherException (cls msg : string)
| UnboundLocalError (var : string)
| IndexError (msg : string)
| SystemExit (code : Z).

Definition exn_of_lib (e : lib_exn) : exn :=
  match e with
  | LibSTLError m => STLError m
  | LibOther c m => OtherException c m
  end.

Inductive lib_outcome (A : Type) : Type :=
| LOk (a : A)
| LRaise (e : lib_exn).
Arguments LOk {A} a.
Arguments LRaise {A} e.

Inductive event : Type :=
| EvPrint (text : string)
| EvSTLClient (server : value)
| EvConnect
| EvReset
| EvMapPorts
| EvSTLBench
| EvGetStreams (ip_range : ip_range_t) (size vm : value) (direction : Z)
| EvAddStreams (streams : list STLStream) (ports : list Z)
| EvNdrBenchConfig (config : Cfg.t)
| EvNdrBench (config : Cfg.t)
| EvFindNdr (config : Cfg.t)
| EvPrintFinal (latency : value)
| EvDisconnect
| EvToJson.

Definition is_disconnect (e : event) : bool :=
  match e with EvDisconnect => true | _ => false end.

(** The answers of the code outside this file: the client library
    ([STLClient], [stl_map_ports]) and [ndr_bench] ([STLBench],
    [NdrBenchConfig], [NdrBench], its results). *)
Record World : Type := {
  ext_STLClient : value -> lib_outcome unit;
  ext_connect : lib_outcome unit;
  ext_reset : lib_outcome unit;
  ext_stl_map_ports : lib_outcome port_table;
  ext_STLBench : lib_outcome ip_range_t;
  ext_get_streams : ip_range_t -> value -> value -> Z -> lib_outcome (list STLStream);
  ext_add_streams : list STLStream -> list Z -> lib_outcome unit;
  ext_NdrBenchConfig : Cfg.t -> lib_outcome unit;
  ext_NdrBench : Cfg.t -> lib_outcome unit;
  ext_find_ndr : Cfg.t -> lib_outcome unit;
  ext_config_verbose : Cfg.t -> value;
  ext_print_final : value -> lib_outcome unit;
  ext_to_json : lib_outcome string;
  ext_disconnect : lib_outcome unit
}.

(** ** The monad: a trace of events and a result or a raised exception *)

Inductive outcome (A : Type) : Type :=
| Returned (a : A)
| Raised (e : exn).
Arguments Returned {A} a.
Arguments Raised {A} e.

Definition M (A : Type) : Type := (list event * outcome A)%type.

Definition ret {A} (a : A) : M A := ([], Returned a).

Definition raise {A} (e : exn) : M A := ([], Raised e).

Definition bind {A B} (m : M A) (f : A -> M B) : M B :=
  match m with
  | (t, Returned a) => let (t', r) := f a in (t ++ t', r)
  | (t, Raised e) => (t, Raised e)
  end.

Notation "x <- m ;; k" := (bind m (fun x => k))
  (at level 61, m at next level, right associativity).
Notation "m ;;; k" := (bind m (fun _ => k))
  (at level 61, right associativity).

(** A call into the library: the event, then its answer. *)
Definition call {A} (ev : event) (r : lib_outcome A) : M A :=
  match r with
  | LOk a => ([ev], Returned a)
  | LRaise e => ([ev], Raised (exn_of_lib e))
  end.

Definition print (text : string) : M unit := ([EvPrint text], Returned tt).

(** [sys.exit(code)] *)
Definition sys_exit {A} (code : Z) : M A := raise (SystemExit code).

(** [try: body / except STLError as e: handler e] *)
Definition try_except_STLError {A} (body : M A) (handler : string -> M A) : M A :=
  match body with
  | (t, Raised (STLError msg)) => let (t', r) := handler msg in (t ++ t', r)
  | other => other
  end.

(** [try: m / finally: fin]: [fin] always runs; what [m] returned or raised
    goes on unless [fin] itself raises. *)
Definition try_finally {A} (m : M A) (fin : M unit) : M A :=
  let (t, r) := m in
  match fin with
  | (t', Returned _) => (t ++ t', r)
  | (t', Raised e) => (t ++ t', Raised e)
  end.

Definition nl : string := String (ascii_of_nat 10) EmptyString.

Definition passed_message : string :=
  String.append nl (String.append "Test has passed :-)" nl).
Definition failed_message : string :=
  String.append nl (String.append "Test has failed :-(" nl).

(** ** The tool *)

Section Tool.

Variable W : World.

(** [build_streams_for_bench], lines 11-24.  The local [stl_bench] is
    bound only inside [if vm:]; [None] is the unbound local. *)
Definition build_streams_for_bench
    (size vm src_start_ip src_stop_ip dest_start_ip dest_stop_ip : value)
    (direction : Z) : M (list STLStream) :=
  stl_bench <-
    (if truthy vm then
       ip_range <- call EvSTLBench (ext_STLBench W) ;;
       let ip_range :=
         if truthy src_start_ip then set_src_start ip_range src_start_ip else ip_range in
       let ip_range :=
         if truthy src_stop_ip then set_src_end ip_range src_stop_ip else ip_range in
       let ip_range :=
         if truthy dest_start_ip then set_dst_start ip_range dest_start_ip else ip_range in
       let ip_range :=
         if truthy dest_stop_ip then set_dst_end ip_range dest_stop_ip else ip_range in
       ret (Some ip_range)
     else ret None) ;;
  match stl_bench with
  | None => raise (UnboundLocalError "stl_bench")
  | Some ip_range =>
      streams <- call (EvGetStreams ip_range size vm direction)
                      (ext_get_streams W ip_range size vm direction) ;;
      ret streams
  end.

(** [range(0, stop, 2)] *)
Definition range_by_2 (stop : nat) : list nat :=
  map (fun k => (2 * k)%nat) (seq 0 (Nat.div2 (S stop))).

(** Lines 50-55: the transmit side [dir_0] and [ports]. *)
Definition select_ports (ports_list : ports_arg) (table : port_table)
  : M (list Z * list Z) :=
  if truthy_list ports_list then
    let dir_0 :=
      map (fun i => nth i (list_of ports_list) 0)
          (range_by_2 (List.length (list_of ports_list))) in
    let ports := list_of ports_list in
    ret (dir_0, ports)
  else
    match bi table with
    | [] => raise (IndexError "list index out of range")
    | (p0, p1) :: _ => ret ([p0], [p0; p1])
    end.

(** Lines 66-75: the stream appended when [latency] is set. *)
Definition s1 : STLStream :=
  let burst_size := 1000 in
  let pps := 1000 in
  let pkt :=
    {| pkt := [Ether; IP "16.0.0.1" "48.0.0.1"; UDP 12 1025;
               Raw "at_least_16_bytes_payload_needed"] |} in
  let total_pkts := burst_size in
  {| name := Some "rx";
     packet := pkt;
     flow_stats := Some (STLFlowLatencyStats 5);
     mode := STLTXSingleBurst total_pkts pps |}.

(** Lines 90-101: the [try / except STLError / finally] statement around
    the search.  Its value is the local [passed] after the statement.
    [b.config.verbose] is read from the bench object, which [ndr_bench]
    owns: [ext_config_verbose] at the configuration the object was built
    from. *)
Definition find_ndr_block (config : Cfg.t) (latency : value) (passed : bool)
  : M bool :=
  try_finally
    (try_except_STLError
       (call (EvFindNdr config) (ext_find_ndr W config) ;;;
        (if truthy (ext_config_verbose W config)
         then call (EvPrintFinal latency) (ext_print_final W latency)
         else ret tt) ;;;
        ret passed)
       (fun e =>
          let passed := false in
          print e ;;;
          @sys_exit unit 1 ;;;
          ret passed))
    (call EvDisconnect (ext_disconnect W)).

(** Lines 103-110: the verdict on [passed], then the result, returned
    only for [output == 'json']. *)
Definition report_block (output : value) (passed : bool) : M (option string) :=
  (if passed then print passed_message else print failed_message) ;;;
  result <- call EvToJson (ext_to_json W) ;;
  if eq_str output "json" then ret (Some result) else ret None.

(** [ndr_benchmark_test], lines 32-110.  [None] is Python's [None]. *)
Definition ndr_benchmark_test
    (server core_mask pdr iteration_duration ndr_results setup_name
     first_run_duration verbose pdr_error q_ful_resolution latency vm
     pkt_size fe_src_start_ip fe_src_stop_ip fe_dst_start_ip fe_dst_stop_ip
     drop_rate_interval output : value)
    (ports_list : ports_arg) : M (option string) :=
  let passed := true in
  if truthy_list ports_list
     && negb (Z.of_nat (List.length (list_of ports_list)) mod 2 =? 0)
  then
    print "illegal ports list" ;;;
    ret None
  else
    call (EvSTLClient server) (ext_STLClient W server) ;;;
    call EvConnect (ext_connect W) ;;;
    call EvReset (ext_reset W) ;;;
    table <- call EvMapPorts (ext_stl_map_ports W) ;;
    dp <- select_ports ports_list table ;;
    let dir_0 := fst dp in
    let ports := snd dp in
    streams <- build_streams_for_bench pkt_size vm fe_src_start_ip fe_src_stop_ip
                 fe_dst_start_ip fe_dst_stop_ip 0 ;;
    let streams := if truthy latency then streams ++ [s1] else streams in
    call (EvAddStreams streams dir_0) (ext_add_streams W streams dir_0) ;;;
    let config :=
      {| Cfg.ports := ports; Cfg.pkt_size := pkt_size; Cfg.vm := vm;
         Cfg.iteration_duration := iteration_duration;
         Cfg.q_ful_resolution := q_ful_resolution;
         Cfg.first_run_duration := first_run_duration;
         Cfg.pdr := pdr; Cfg.pdr_error := pdr_error;
         Cfg.ndr_results := ndr_results;
         Cfg.latency := latency; Cfg.core_mask := core_mask;
         Cfg.verbose := verbose;
         Cfg.drop_rate_interval := drop_rate_interval |} in
    call (EvNdrBenchConfig config) (ext_NdrBenchConfig W config) ;;;
    call (EvNdrBench config) (ext_NdrBench W config) ;;;
    passed <- find_ndr_block config latency passed ;;
    report_block output passed.

End Tool.

(** ** The command line *)

Module Args.
(** The namespace [parser.parse_args()] returns, one field per
    [add_argument], lines 114-218. *)
Record t : Type := {
  server : value;
  core_mask : value;
  pdr : value;
  iteration_duration : value;
  ndr_results : value;
  setup_name : value;
  first_run_duration : value;
  verbose : value;
  max_iterations : value;
  pdr_error : value;
  q_ful_resolution : value;
  latency : value;
  vm : value;
  size : value;
  fe_src_start_ip : value;
  fe_src_stop_ip : value;
  fe_dst_start_ip : value;
  fe_dst_stop_ip : value;
  drop_rate_interval : value;
  output : value;
  ports_list : ports_arg
}.

Definition with_setup_name (v : value) (a : t) : t :=
  {| server := server a; core_mask := core_mask a; pdr := pdr a;
     iteration_duration := iteration_duration a; ndr_results := ndr_results a;
     setup_name := v;
     first_run_duration := first_run_duration a; verbose := verbose a;
     max_iterations := max_iterations a; pdr_error := pdr_error a;
     q_ful_resolution := q_ful_resolution a; latency := latency a; vm := vm a;
     size := size a; fe_src_start_ip := fe_src_start_ip a;
     fe_src_stop_ip := fe_src_stop_ip a; fe_dst_start_ip := fe_dst_start_ip a;
     fe_dst_stop_ip := fe_dst_stop_ip a;
     drop_rate_interval := drop_rate_interval a; output := output a;
     ports_list := ports_list a |}.

Definition with_max_iterations (v : value) (a : t) : t :=
  {| server := server a; core_mask := core_mask a; pdr := pdr a;
     iteration_duration := iteration_duration a; ndr_results := ndr_results a;
     setup_name := setup_name a;
     first_run_duration := first_run_duration a; verbose := verbose a;
     max_iterations := v; pdr_error := pdr_error a;
     q_ful_resolution := q_ful_resolution a; latency := latency a; vm := vm a;
     size := size a; fe_src_start_ip := fe_src_start_ip a;
     fe_src_stop_ip := fe_src_stop_ip a; fe_dst_start_ip := fe_dst_start_ip a;
     fe_dst_stop_ip := fe_dst_stop_ip a;
     drop_rate_interval := drop_rate_interval a; output := output a;
     ports_list := ports_list a |}.

Definition with_ports_list (p : ports_arg) (a : t) : t :=
  {| server := server a; core_mask := core_mask a; pdr := pdr a;
     iteration_duration := iteration_duration a; ndr_results := ndr_results a;
     setup_name := setup_name a;
     first_run_duration := first_run_duration a; verbose := verbose a;
     max_iterations := max_iterations a; pdr_error := pdr_error a;
     q_ful_resolution := q_ful_resolution a; latency := latency a; vm := vm a;
     size := size a; fe_src_start_ip := fe_src_start_ip a;
     fe_src_stop_ip := fe_src_stop_ip a; fe_dst_start_ip := fe_dst_start_ip a;
     fe_dst_stop_ip := fe_dst_stop_ip a;
     drop_rate_interval := drop_rate_interval a; output := output a;
     ports_list := p |}.

Definition with_output (v : value) (a : t) : t :=
  {| server := server a; core_mask := core_mask a; pdr := pdr a;
     iteration_duration := iteration_duration a; ndr_results := ndr_results a;
     setup_name := setup_name a;
     first_run_duration := first_run_duration a; verbose := verbose a;
     max_iterations := max_iterations a; pdr_error := pdr_error a;
     q_ful_resolution := q_ful_resolution a; latency := latency a; vm := vm a;
     size := size a; fe_src_start_ip := fe_src_start_ip a;
     fe_src_stop_ip := fe_src_stop_ip a; fe_dst_start_ip := fe_dst_start_ip a;
     fe_dst_stop_ip := fe_dst_stop_ip a;
     drop_rate_interval := drop_rate_interval a; output := v;
     ports_list := ports_list a |}.

(** The [default=] of every option: what the parser returns for an empty
    command line.  [0.1] is the double [3602879701896397 * 2^-55]. *)
Definition defaults : t :=
  {| server := VStr "127.0.0.1"; core_mask := VNone;
     pdr := VFloat 3602879701896397 (-55);
     iteration_duration := VFloat 20 0; ndr_results := VInt 1;
     setup_name := VStr "trex";
     first_run_duration := VFloat 20 0; verbose := VBool false;
     max_iterations := VInt 10; pdr_error := VFloat 1 0;
     q_ful_resolution := VFloat 2 0; latency := VBool true;
     vm := VStr "none"; size := VInt 64;
     fe_src_start_ip := VNone; fe_src_stop_ip := VNone;
     fe_dst_start_ip := VNone; fe_dst_stop_ip := VNone;
     drop_rate_interval := VInt 10; output := VNone;
     ports_list := None |}.
End Args.

(** Lines 223-227: the call at module level.  [args.setup_name] is passed
    and [args.max_iterations] is not. *)
Definition run_tests (W : World) (args : Args.t) : M (option string) :=
  ndr_benchmark_test W
    (Args.server args) (Args.core_mask args) (Args.pdr args)
    (Args.iteration_duration args) (Args.ndr_results args) (Args.setup_name args)
    (Args.first_run_duration args) (Args.verbose args)
    (Args.pdr_error args) (Args.q_ful_resolution args) (Args.latency args)
    (Args.vm args) (Args.size args) (Args.fe_src_start_ip args)
    (Args.fe_src_stop_ip args) (Args.fe_dst_start_ip args)
    (Args.fe_dst_stop_ip args) (Args.drop_rate_interval args) (Args.output args)
    (Args.ports_list args).

(** The interpreter's exit status: [0] when the module runs to its end, the
    code of a [SystemExit], [1] for any other uncaught exception. *)
Definition exit_status {A} (o : outcome A) : Z :=
  match o with
  | Returned _ => 0
  | Raised (SystemExit code) => code
  | Raised _ => 1
  end.

(** A run of the script on parsed arguments: what it did and how the
    process ended. *)
Definition script (W : World) (args : Args.t) : list event * Z :=
  let (t, o) := run_tests W args in (t, exit_status o).

(** ** Two concrete worlds *)

(** A server with the loop 0 <-> 1 (and 2 <-> 3), where every call
    succeeds. *)
Definition bench_stream : STLStream :=
  {| name := None;
     packet := {| pkt := [Ether; IP "16.0.0.1" "48.0.0.1"; UDP 12 1025; Raw "xxxxxxxxxx"] |};
     flow_stats := None;
     mode := STLTXCont 1 |}.

Definition default_ip_range : ip_range_t :=
  {| src_start := VStr "16.0.0.1"; src_end := VStr "16.0.0.254";
     dst_start := VStr "48.0.0.1"; dst_end := VStr "48.0.0.254" |}.

Definition loop_world : World :=
  {| ext_STLClient := fun _ => LOk tt;
     ext_connect := LOk tt;
     ext_reset := LOk tt;
     ext_stl_map_ports :=
       LOk {| map_ := [(0, 1); (1, 0); (2, 3); (3, 2)];
              bi := [(0, 1); (2, 3)];
              unmapped := [] |};
     ext_STLBench := LOk default_ip_range;
     ext_get_streams := fun _ _ _ _ => LOk [bench_stream];
     ext_add_streams := fun _ _ => LOk tt;
     ext_NdrBenchConfig := fun _ => LOk tt;
     ext_NdrBench := fun _ => LOk tt;
     ext_find_ndr := fun _ => LOk tt;
     ext_config_verbose := Cfg.verbose;
     ext_print_final := fun _ => LOk tt;
     ext_to_json := LOk "{}";
     ext_disconnect := LOk tt |}.

(** The same server, with a search that raises the client error. *)
Definition timeout_world : World :=
  {| ext_STLClient := ext_STLClient loop_world;
     ext_connect := ext_connect loop_world;
     ext_reset := ext_reset loop_world;
     ext_stl_map_ports := ext_stl_map_ports loop_world;
     ext_STLBench := ext_STLBench loop_world;
     ext_get_streams := ext_get_streams loop_world;
     ext_add_streams := ext_add_streams loop_world;
     ext_NdrBenchConfig := ext_NdrBenchConfig loop_world;
     ext_NdrBench := ext_NdrBench loop_world;
     ext_find_ndr := fun _ => LRaise (LibSTLError "timeout");
     ext_config_verbose := ext_config_verbose loop_world;
     ext_print_final := ext_print_final loop_world;
     ext_to_json := ext_to_json loop_world;
     ext_disconnect := ext_disconnect loop_world |}.

(** The configuration the default command line leads to on [loop_world]. *)
Definition default_config : Cfg.t :=
  {| Cfg.ports := [0; 1]; Cfg.pkt_size := VInt 64; Cfg.vm := VStr "none";
     Cfg.iteration_duration := VFloat 20 0;
     Cfg.q_ful_resolution := VFloat 2 0;
     Cfg.first_run_duration := VFloat 20 0;
     Cfg.pdr := VFloat 3602879701896397 (-55); Cfg.pdr_error := VFloat 1 0;
     Cfg.ndr_results := VInt 1;
     Cfg.latency := VBool true; Cfg.core_mask := VNone;
     Cfg.verbose := VBool false;
     Cfg.drop_rate_interval := VInt 10 |}.

(** ** Definitions used by the statements *)

(** [prepend t m]: [m] run after the events [t]. *)
Definition prepend {A} (t : list event) (m : M A) : M A :=
  (t ++ fst m, snd m).

(** The events between the call of [find_ndr] and [disconnect], and what the
    [try]/[except] part leaves to the [finally]. *)
Definition search_events (W : World) (config : Cfg.t) (latency : value)
  : list event * outcome bool :=
  match ext_find_ndr W config with
  | LOk _ =>
      if truthy (ext_config_verbose W config) then
        match ext_print_final W latency with
        | LOk _ => ([EvPrintFinal latency], Returned true)
        | LRaise (LibSTLError msg) =>
            ([EvPrintFinal latency; EvPrint msg], Raised (SystemExit 1))
        | LRaise (LibOther c m) =>
            ([EvPrintFinal latency], Raised (OtherException c m))
        end
      else ([], Returned true)
  | LRaise (LibSTLError msg) => ([EvPrint msg], Raised (SystemExit 1))
  | LRaise (LibOther c m) => ([], Raised (OtherException c m))
  end.

(** [stl_bench.ip_range] after lines 14-21, from the range [r] the new
    [STLBench] came with. *)
Definition overridden_range (r : ip_range_t)
    (src_start_ip src_stop_ip dest_start_ip dest_stop_ip : value) : ip_range_t :=
  let r := if truthy src_start_ip then set_src_start r src_start_ip else r in
  let r := if truthy src_stop_ip then set_src_end r src_stop_ip else r in
  let r := if truthy dest_start_ip then set_dst_start r dest_start_ip else r in
  let r := if truthy dest_stop_ip then set_dst_end r dest_stop_ip else r in
  r.

(** The events of a run up to the construction of the bench object. *)
Definition setup_events (server : value) (ip_range : ip_range_t)
    (pkt_size vm : value) (streams : list STLStream) (dir_0 : list Z)
    (config : Cfg.t) : list event :=
  [EvSTLClient server; EvConnect; EvReset; EvMapPorts; EvSTLBench;
   EvGetStreams ip_range pkt_size vm 0; EvAddStreams streams dir_0;
   EvNdrBenchConfig config; EvNdrBench config].

(** The events a run can make before it attaches streams. *)
Definition early_event (ev : event) : Prop :=
  match ev with
  | EvPrint _ | EvSTLClient _ | EvConnect | EvReset | EvMapPorts | EvSTLBench
  | EvGetStreams _ _ _ _ => True
  | _ => False
  end.

(** The calls a run makes before the search. *)
Definition is_setup_event (ev : event) : bool :=
  match ev with
  | EvSTLClient _ | EvConnect | EvReset | EvMapPorts | EvSTLBench
  | EvGetStreams _ _ _ _ | EvAddStreams _ _ | EvNdrBenchConfig _
  | EvNdrBench _ => true
  | _ => false
  end.

(** The three ways a run can go, [guard] being the test of lines 36-37: it
    stops at the port list, it fails during the setup, or it gets to the
    search. *)
Definition run_case (guard : bool) (run : M (option string)) : Prop :=
  (guard = true /\ run = ([EvPrint "illegal ports list"], Returned None)) \/
  (guard = false /\
   exists t e,
     run = (t, Raised e) /\
     forallb is_setup_event t = true /\
     exit_status (@Raised (option string) e) = 1) \/
  (guard = false /\ exists cfg, In (EvFindNdr cfg) (fst run)).

(** A port list written pair by pair: [[a0; b0; a1; b1; ...]]. *)
Definition flatten_pairs (pairs : list (Z * Z)) : list Z :=
  flat_map (fun p => [fst p; snd p]) pairs.

(** A world that answers as [loop_world] except at the calls given. *)
Definition world_of (connect : lib_outcome unit) (table : port_table)
    (find_ndr : lib_outcome unit) (verbose : value)
    (print_final : lib_outcome unit) (disconnect : lib_outcome unit)
    (to_json : lib_outcome string) : World :=
  {| ext_STLClient := ext_STLClient loop_world;
     ext_connect := connect;
     ext_reset := ext_reset loop_world;
     ext_stl_map_ports := LOk table;
     ext_STLBench := ext_STLBench loop_world;
     ext_get_streams := ext_get_streams loop_world;
     ext_add_streams := ext_add_streams loop_world;
     ext_NdrBenchConfig := ext_NdrBenchConfig loop_world;
     ext_NdrBench := ext_NdrBench loop_world;
     ext_find_ndr := fun _ => find_ndr;
     ext_config_verbose := fun _ => verbose;
     ext_print_final := fun _ => print_final;
     ext_to_json := to_json;
     ext_disconnect := disconnect |}.

Definition loop_table : port_table :=
  {| map_ := [(0, 1); (1, 0); (2, 3); (3, 2)];
     bi := [(0, 1); (2, 3)];
     unmapped := [] |}.

Definition unmapped_table : port_table :=
  {| map_ := []; bi := []; unmapped := [0; 1] |}.

(** Every call that returns nothing succeeds in [W]. *)
Definition answers_ok (W : World) : Prop :=
  (forall server, ext_STLClient W server = LOk tt) /\
  ext_connect W = LOk tt /\
  ext_reset W = LOk tt /\
  (forall streams ports, ext_add_streams W streams ports = LOk tt) /\
  (forall config, ext_NdrBenchConfig W config = LOk tt) /\
  (forall config, ext_NdrBench W config = LOk tt) /\
  (forall config, ext_find_ndr W config = LOk tt) /\
  (forall latency, ext_print_final W latency = LOk tt) /\
  ext_disconnect W = LOk tt.

(** Worlds in which one call fails, and arguments for them. *)
Definition refused_world : World :=
  world_of (LRaise (LibSTLError "refused")) loop_table (LOk tt) (VBool false)
    (LOk tt) (LOk tt) (LOk "{}").

Definition unmapped_world : World :=
  world_of (LOk tt) unmapped_table (LOk tt) (VBool false)
    (LOk tt) (LOk tt) (LOk "{}").

Definition no_results_world : World :=
  world_of (LOk tt) loop_table (LOk tt) (VBool true)
    (LRaise (LibSTLError "no results")) (LOk tt) (LOk "{}").

Definition crash_world : World :=
  world_of (LOk tt) loop_table (LRaise (LibOther "ValueError" "bad rate"))
    (VBool false) (LOk tt) (LOk tt) (LOk "{}").


Definition unserializable_world : World :=
  world_of (LOk tt) loop_table (LOk tt) (VBool false)
    (LOk tt) (LOk tt) (LRaise (LibOther "TypeError" "not serializable")).

Definition default_config_on (ports : list Z) (latency : value) : Cfg.t :=
  {| Cfg.ports := ports; Cfg.pkt_size := VInt 64; Cfg.vm := VStr "none";
     Cfg.iteration_duration := VFloat 20 0;
     Cfg.q_ful_resolution := VFloat 2 0;
     Cfg.first_run_duration := VFloat 20 0;
     Cfg.pdr := VFloat 3602879701896397 (-55); Cfg.pdr_error := VFloat 1 0;
     Cfg.ndr_results := VInt 1;
     Cfg.latency := latency; Cfg.core_mask := VNone;
     Cfg.verbose := VBool false;
     Cfg.drop_rate_interval := VInt 10 |}.

(** The default command line with [-l], and with [-fe ''].  *)
Definition no_latency_args : Args.t :=
  {| Args.server := VStr "127.0.0.1"; Args.core_mask := VNone;
     Args.pdr := VFloat 3602879701896397 (-55);
     Args.iteration_duration := VFloat 20 0; Args.ndr_results := VInt 1;
     Args.setup_name := VStr "trex";
     Args.first_run_duration := VFloat 20 0; Args.verbose := VBool false;
     Args.max_iterations := VInt 10; Args.pdr_error := VFloat 1 0;
     Args.q_ful_resolution := VFloat 2 0; Args.latency := VBool false;
     Args.vm := VStr "none"; Args.size := VInt 64;
     Args.fe_src_start_ip := VNone; Args.fe_src_stop_ip := VNone;
     Args.fe_dst_start_ip := VNone; Args.fe_dst_stop_ip := VNone;
     Args.drop_rate_interval := VInt 10; Args.output := VNone;
     Args.ports_list := None |}.

Definition empty_fe_args : Args.t :=
  {| Args.server := VStr "127.0.0.1"; Args.core_mask := VNone;
     Args.pdr := VFloat 3602879701896397 (-55);
     Args.iteration_duration := VFloat 20 0; Args.ndr_results := VInt 1;
     Args.setup_name := VStr "trex";
     Args.first_run_duration := VFloat 20 0; Args.verbose := VBool false;
     Args.max_iterations := VInt 10; Args.pdr_error := VFloat 1 0;
     Args.q_ful_resolution := VFloat 2 0; Args.latency := VBool true;
     Args.vm := VStr EmptyString; Args.size := VInt 64;
     Args.fe_src_start_ip := VNone; Args.fe_src_stop_ip := VNone;
     Args.fe_dst_start_ip := VNone; Args.fe_dst_stop_ip := VNone;
     Args.drop_rate_interval := VInt 10; Args.output := VNone;
     Args.ports_list := None |}.

(** * Properties *)

(** ** The monad *)

Lemma bind_Returned {A B} (t : list event) (a : A) (f : A -> M B) :
  bind (t, Returned a) f = prepend t (f a).
Proof. unfold bind, prepend. destruct (f a); reflexivity. Qed.

Lemma bind_Raised {A B} (t : list event) (e : exn) (f : A -> M B) :
  bind (t, @Raised A e) f = (t, Raised e).
Proof. reflexivity. Qed.

Lemma prepend_prepend {A} (t u : list event) (m : M A) :
  prepend t (prepend u m) = prepend (t ++ u) m.
Proof. unfold prepend. cbn [fst snd]. now rewrite app_assoc. Qed.

Lemma bind_call_LOk {A B} ev (a : A) (f : A -> M B) :
  bind (call ev (LOk a)) f = prepend [ev] (f a).
Proof. unfold call. apply bind_Returned. Qed.

Lemma bind_call_LRaise {A B} ev e (f : A -> M B) :
  bind (call ev (@LRaise A e)) f = ([ev], Raised (exn_of_lib e)).
Proof. reflexivity. Qed.

Lemma bind_print {B} s (f : unit -> M B) :
  bind (print s) f = prepend [EvPrint s] (f tt).
Proof. unfold print. apply bind_Returned. Qed.

(** ** The block around the search *)

Lemma find_ndr_block_eq W config latency :
  find_ndr_block W config latency true =
  (EvFindNdr config :: fst (search_events W config latency) ++ [EvDisconnect],
   match ext_disconnect W with
   | LOk _ => snd (search_events W config latency)
   | LRaise e => Raised (exn_of_lib e)
   end).
Proof.
  unfold find_ndr_block, search_events.
  destruct (ext_find_ndr W config) as [[] | [msg | c m]];
    [ destruct (truthy (ext_config_verbose W config));
      [ destruct (ext_print_final W latency) as [[] | [msg | c m]] | ] | | ];
    destruct (ext_disconnect W) as [[] | e]; reflexivity.
Qed.

(** After the statement the local [passed] is never [False]. *)
Lemma find_ndr_block_passed W config latency b :
  snd (find_ndr_block W config latency true) = Returned b -> b = true.
Proof.
  rewrite find_ndr_block_eq. cbn [snd]. unfold search_events.
  destruct (ext_disconnect W) as [[] | e]; [ | discriminate ].
  destruct (ext_find_ndr W config) as [[] | [msg | c m]];
    [ destruct (truthy (ext_config_verbose W config));
      [ destruct (ext_print_final W latency) as [[] | [msg | c m]] | ] | | ];
    cbn [snd]; congruence.
Qed.

(** ** The transmit side of an explicit list *)

Example range_by_2_5 : range_by_2 5 = [0; 2; 4]%nat.
Proof. reflexivity. Qed.

Example select_ports_four table :
  select_ports (Some [4; 5; 6; 7]) table = ret ([4; 6], [4; 5; 6; 7]).
Proof. reflexivity. Qed.

(** ** Runs that reach the search *)

Ltac dead_run :=
  cbn [prepend fst snd app In];
  let H := fresh in
  intros H; repeat (destruct H as [H | H]; [ discriminate H | ]); contradiction.

Ltac early_run :=
  right; cbn [prepend fst snd app In];
  let ev := fresh in
  let H := fresh in
  intros ev H; repeat (destruct H as [<- | H]; [ exact I | ]); contradiction.

Ltac call_step :=
  match goal with
  | |- context [bind (call ?ev ?r) _] =>
      destruct r as [? | ?] eqn:?;
      [ rewrite bind_call_LOk; rewrite ?prepend_prepend; cbn [app]
      | rewrite bind_call_LRaise; try dead_run ]
  end.

Section Runs.

Variable W : World.
Variables server core_mask pdr iteration_duration ndr_results setup_name
  first_run_duration verbose pdr_error q_ful_resolution latency vm pkt_size
  fe_src_start_ip fe_src_stop_ip fe_dst_start_ip fe_dst_stop_ip
  drop_rate_interval output : value.
Variable ports_list : ports_arg.

Local Abbreviation the_run :=
  (ndr_benchmark_test W server core_mask pdr iteration_duration ndr_results
     setup_name first_run_duration verbose pdr_error q_ful_resolution latency
     vm pkt_size fe_src_start_ip fe_src_stop_ip fe_dst_start_ip fe_dst_stop_ip
     drop_rate_interval output ports_list).

Lemma build_streams_falsy size vm' a b c d dir :
  truthy vm' = false ->
  build_streams_for_bench W size vm' a b c d dir =
  ([], Raised (UnboundLocalError "stl_bench")).
Proof. intros H. unfold build_streams_for_bench. rewrite H. reflexivity. Qed.

Lemma build_streams_truthy size vm' a b c d dir :
  truthy vm' = true ->
  build_streams_for_bench W size vm' a b c d dir =
  (r <- call EvSTLBench (ext_STLBench W) ;;
   call (EvGetStreams (overridden_range r a b c d) size vm' dir)
        (ext_get_streams W (overridden_range r a b c d) size vm' dir)).
Proof.
  intros H. unfold build_streams_for_bench. rewrite H.
  destruct (ext_STLBench W) as [r | e]; [ | reflexivity ].
  cbv [bind call ret app overridden_range].
  match goal with
  | |- context [ext_get_streams W ?x size vm' dir] =>
      destruct (ext_get_streams W x size vm' dir); reflexivity
  end.
Qed.

Lemma build_streams_returns size vm' a b c d dir r prim :
  truthy vm' = true ->
  ext_STLBench W = LOk r ->
  ext_get_streams W (overridden_range r a b c d) size vm' dir = LOk prim ->
  build_streams_for_bench W size vm' a b c d dir =
  ([EvSTLBench; EvGetStreams (overridden_range r a b c d) size vm' dir],
   Returned prim).
Proof.
  intros V Eb Eg. rewrite (build_streams_truthy _ _ _ _ _ _ _ V), Eb.
  rewrite bind_call_LOk, Eg. reflexivity.
Qed.

Lemma build_streams_cases size vm' a b c d dir :
  (exists r prim,
      truthy vm' = true /\
      ext_STLBench W = LOk r /\
      ext_get_streams W (overridden_range r a b c d) size vm' dir = LOk prim /\
      build_streams_for_bench W size vm' a b c d dir =
      ([EvSTLBench; EvGetStreams (overridden_range r a b c d) size vm' dir],
       Returned prim)) \/
  (exists t e,
      build_streams_for_bench W size vm' a b c d dir = (t, Raised e) /\
      forall ev, In ev t ->
                 ev = EvSTLBench \/ exists ipr, ev = EvGetStreams ipr size vm' dir).
Proof.
  destruct (truthy vm') eqn:V.
  - rewrite (build_streams_truthy _ _ _ _ _ _ _ V).
    destruct (ext_STLBench W) as [r | e0] eqn:E0.
    + rewrite bind_call_LOk.
      destruct (ext_get_streams W (overridden_range r a b c d) size vm' dir)
        as [prim | e1] eqn:E1.
      * left. exists r, prim. repeat split; auto.
      * right. eexists; eexists; split; [ reflexivity | ].
        cbn. intros ev [<- | [<- | []]]; eauto.
    + right. rewrite bind_call_LRaise. eexists; eexists; split; [ reflexivity | ].
      cbn. intros ev [<- | []]; eauto.
  - right. rewrite (build_streams_falsy _ _ _ _ _ _ _ V).
    eexists; eexists; split; [ reflexivity | ]. intros ev [].
Qed.

(** Every event of the part of a run from the search on. *)
Lemma tail_events cfg0 ev :
  In ev (fst (passed <- find_ndr_block W cfg0 latency true ;;
              report_block W output passed)) ->
  ev = EvFindNdr cfg0 \/ ev = EvPrintFinal latency \/ ev = EvDisconnect \/
  ev = EvToJson \/ exists text, ev = EvPrint text.
Proof.
  rewrite find_ndr_block_eq. unfold search_events, report_block.
  destruct (ext_find_ndr W cfg0) as [[] | [msg | c m]];
    [ destruct (truthy (ext_config_verbose W cfg0));
      [ destruct (ext_print_final W latency) as [[] | [msg | c m]] | ] | | ];
    destruct (ext_disconnect W) as [[] | e];
    destruct (ext_to_json W) as [j | e'];
    destruct (eq_str output "json");
    cbv [bind call print ret app fst snd In];
    intros H; repeat (destruct H as [<- | H]; [ eauto 6 | ]); contradiction.
Qed.

Lemma select_ports_trace table :
  fst (select_ports ports_list table) = [].
Proof.
  unfold select_ports. destruct (truthy_list ports_list); [ reflexivity | ].
  destruct (bi table) as [ | [p0 p1] rest]; reflexivity.
Qed.

Local Abbreviation the_config ports :=
  {| Cfg.ports := ports; Cfg.pkt_size := pkt_size; Cfg.vm := vm;
     Cfg.iteration_duration := iteration_duration;
     Cfg.q_ful_resolution := q_ful_resolution;
     Cfg.first_run_duration := first_run_duration;
     Cfg.pdr := pdr; Cfg.pdr_error := pdr_error;
     Cfg.ndr_results := ndr_results;
     Cfg.latency := latency; Cfg.core_mask := core_mask;
     Cfg.verbose := verbose;
     Cfg.drop_rate_interval := drop_rate_interval |}.

Local Abbreviation the_range r :=
  (overridden_range r fe_src_start_ip fe_src_stop_ip fe_dst_start_ip
     fe_dst_stop_ip).

Local Abbreviation the_streams prim :=
  (if truthy latency then prim%list ++ [s1] else prim%list).

(** A run either gets as far as attaching streams, or stops among the
    early events. *)
Lemma setup_cases :
  (exists table dir_0 ports r prim,
      truthy_list ports_list
      && negb (Z.of_nat (List.length (list_of ports_list)) mod 2 =? 0) = false /\
      ext_stl_map_ports W = LOk table /\
      select_ports ports_list table = ret (dir_0, ports) /\
      truthy vm = true /\
      ext_STLBench W = LOk r /\
      ext_get_streams W (the_range r) pkt_size vm 0 = LOk prim /\
      the_run =
      prepend
        [EvSTLClient server; EvConnect; EvReset; EvMapPorts; EvSTLBench;
         EvGetStreams (the_range r) pkt_size vm 0]
        (call (EvAddStreams (the_streams prim) dir_0)
              (ext_add_streams W (the_streams prim) dir_0) ;;;
         call (EvNdrBenchConfig (the_config ports))
              (ext_NdrBenchConfig W (the_config ports)) ;;;
         call (EvNdrBench (the_config ports))
              (ext_NdrBench W (the_config ports)) ;;;
         passed <- find_ndr_block W (the_config ports) latency true ;;
         report_block W output passed)) \/
  (forall ev, In ev (fst the_run) -> early_event ev).
Proof.
  unfold ndr_benchmark_test.
  destruct (truthy_list ports_list
            && negb (Z.of_nat (List.length (list_of ports_list)) mod 2 =? 0))
    eqn:G.
  { rewrite bind_print. early_run. }
  do 4 (call_step; [ | early_run ]).
  match goal with T : port_table |- _ => rename T into table end.
  pose proof (select_ports_trace table) as St.
  destruct (select_ports ports_list table) as [ts [[dir_0 ports] | e]] eqn:Sp;
    cbn [fst] in St; subst ts; [ | rewrite bind_Raised; early_run ].
  rewrite bind_Returned, prepend_prepend. cbn [app fst snd].
  destruct (build_streams_cases pkt_size vm fe_src_start_ip fe_src_stop_ip
              fe_dst_start_ip fe_dst_stop_ip 0)
    as [(r & prim & V & Eb & Eg & Bs) | (t & e & Bs & Ht)]; rewrite Bs.
  - rewrite bind_Returned, prepend_prepend. cbn [app].
    left. exists table, dir_0, ports, r, prim. repeat split; auto.
  - rewrite bind_Raised. right.
    cbn [prepend fst snd]. intros ev H.
    apply in_app_or in H. destruct H as [H | H].
    + cbn in H. repeat (destruct H as [<- | H]; [ exact I | ]).
      contradiction.
    + apply Ht in H. destruct H as [-> | [ipr ->]]; exact I.
Qed.

Lemma reaches_search cfg :
  In (EvFindNdr cfg) (fst the_run) ->
  exists table dir_0 ports r prim,
    truthy_list ports_list
    && negb (Z.of_nat (List.length (list_of ports_list)) mod 2 =? 0) = false /\
    ext_stl_map_ports W = LOk table /\
    select_ports ports_list table = ret (dir_0, ports) /\
    truthy vm = true /\
    ext_STLBench W = LOk r /\
    ext_get_streams W (the_range r) pkt_size vm 0 = LOk prim /\
    cfg = the_config ports /\
    the_run =
    prepend
      (setup_events server (the_range r) pkt_size vm (the_streams prim) dir_0 cfg)
      (passed <- find_ndr_block W cfg latency true ;;
       report_block W output passed).
Proof.
  destruct setup_cases
    as [(table & dir_0 & ports & r & prim & G & Em & Sp & V & Eb & Eg & R) | E].
  - rewrite R. do 3 call_step.
    intros H. cbn [prepend fst] in H. apply in_app_or in H.
    destruct H as [H | H].
    + exfalso. cbn in H.
      repeat (destruct H as [H | H]; [ discriminate H | ]). contradiction.
    + apply tail_events in H.
      destruct H as [H | [H | [H | [H | [text H]]]]]; try discriminate H.
      injection H as ->.
      exists table, dir_0, ports, r, prim. repeat split; auto.
  - intros H. apply E in H. contradiction.
Qed.

(** What the part of a run from the search on does, case by case. *)
Lemma tail_filter_disconnect cfg :
  filter is_disconnect
    (fst (passed <- find_ndr_block W cfg latency true ;;
          report_block W output passed)) = [EvDisconnect].
Proof.
  rewrite find_ndr_block_eq. unfold search_events, report_block.
  destruct (ext_find_ndr W cfg) as [[] | [msg | c m]];
    [ destruct (truthy (ext_config_verbose W cfg));
      [ destruct (ext_print_final W latency) as [[] | [msg | c m]] | ] | | ];
    destruct (ext_disconnect W) as [[] | e];
    destruct (ext_to_json W) as [j | e'];
    destruct (eq_str output "json");
    reflexivity.
Qed.

Lemma tail_STLError cfg msg :
  ext_find_ndr W cfg = LRaise (LibSTLError msg) ->
  fst (passed <- find_ndr_block W cfg latency true ;;
       report_block W output passed)
  = [EvFindNdr cfg; EvPrint msg; EvDisconnect] /\
  exit_status (snd (passed <- find_ndr_block W cfg latency true ;;
                    report_block W output passed)) = 1.
Proof.
  intros E. rewrite find_ndr_block_eq. unfold search_events. rewrite E.
  destruct (ext_disconnect W) as [[] | [m | c m]]; split; reflexivity.
Qed.

Lemma tail_Returned cfg t v :
  (passed <- find_ndr_block W cfg latency true ;;
   report_block W output passed) = (t, Returned v) ->
  exists j,
    ext_to_json W = LOk j /\
    v = (if eq_str output "json" then Some j else None) /\
    exists mid,
      t = EvFindNdr cfg :: mid ++ [EvDisconnect; EvPrint passed_message; EvToJson].
Proof.
  rewrite find_ndr_block_eq. unfold search_events, report_block.
  destruct (ext_find_ndr W cfg) as [[] | [msg | c m]];
    [ destruct (truthy (ext_config_verbose W cfg));
      [ destruct (ext_print_final W latency) as [[] | [msg | c m]] | ] | | ];
    destruct (ext_disconnect W) as [[] | e];
    destruct (ext_to_json W) as [j | e'];
    destruct (eq_str output "json");
    cbv [bind call print ret app fst snd];
    intros H; try discriminate H; injection H as <- <-;
    exists j; (split; [ reflexivity | split; [ reflexivity | ] ]).
  all: first [ now exists [EvPrintFinal latency] | now exists [] ].
Qed.

Lemma tail_head cfg :
  exists post,
    fst (passed <- find_ndr_block W cfg latency true ;;
         report_block W output passed) = EvFindNdr cfg :: post /\
    In EvDisconnect post.
Proof.
  rewrite find_ndr_block_eq.
  match goal with
  | |- context [bind (_, ?o) _] => destruct o as [b | e]
  end.
  - rewrite bind_Returned. cbn [prepend fst app].
    eexists; split; [ reflexivity | ].
    apply in_or_app; left. apply in_or_app; right. now left.
  - rewrite bind_Raised. cbn [fst].
    eexists; split; [ reflexivity | ].
    apply in_or_app; right. now left.
Qed.

Lemma select_ports_explicit (l : list Z) table :
  l <> [] ->
  select_ports (Some l) table =
  ret (map (fun i => nth i l 0) (range_by_2 (List.length l)), l).
Proof. destruct l; [ congruence | reflexivity ]. Qed.

Lemma select_ports_auto p table :
  truthy_list p = false ->
  select_ports p table =
  match bi table with
  | [] => raise (IndexError "list index out of range")
  | (p0, p1) :: _ => ret ([p0], [p0; p1])
  end.
Proof. intros H. unfold select_ports. now rewrite H. Qed.

Lemma odd_length_mod (n : nat) : Nat.odd n = true -> Z.of_nat n mod 2 = 1.
Proof.
  intros H. apply Nat.odd_spec in H. destruct H as [k ->].
  replace (Z.of_nat (2 * k + 1)) with (1 + Z.of_nat k * 2) by lia.
  now rewrite Z_mod_plus_full.
Qed.

Lemma eq_str_spec (v : value) (t : string) :
  eq_str v t = true <-> v = VStr t.
Proof.
  destruct v; cbn; try (split; [ discriminate | discriminate ]).
  rewrite String.eqb_eq. split; congruence.
Qed.

(** ** The claims about [ndr_benchmark_test] *)

(** C1. For every explicit port list of odd length (such a list is not
    empty), [ndr_benchmark_test] prints the error message and returns: the
    print is the only event of the run, so no client is created or
    connected, no port is reset or mapped, no stream is built or attached
    and the search is not invoked. *)
Theorem odd_ports_list_aborts (l : list Z) :
  Nat.odd (List.length l) = true ->
  ndr_benchmark_test W server core_mask pdr iteration_duration ndr_results
    setup_name first_run_duration verbose pdr_error q_ful_resolution latency
    vm pkt_size fe_src_start_ip fe_src_stop_ip fe_dst_start_ip fe_dst_stop_ip
    drop_rate_interval output (Some l)
  = ([EvPrint "illegal ports list"], Returned None).
Proof.
  intros H. unfold ndr_benchmark_test.
  cbn [list_of]. rewrite (odd_length_mod _ H).
  destruct l as [ | x l]; [ discriminate H | reflexivity ].
Qed.

(** C3. In every run that reaches the search, [c.disconnect()] is invoked
    exactly once, whatever the search did: returned, raised the client
    error, or raised anything else. *)
Theorem disconnect_exactly_once cfg :
  In (EvFindNdr cfg)
    (fst
       (ndr_benchmark_test W server core_mask pdr iteration_duration
          ndr_results setup_name first_run_duration verbose pdr_error
          q_ful_resolution latency vm pkt_size fe_src_start_ip fe_src_stop_ip
          fe_dst_start_ip fe_dst_stop_ip drop_rate_interval output ports_list)) ->
  filter is_disconnect
    (fst
       (ndr_benchmark_test W server core_mask pdr iteration_duration
          ndr_results setup_name first_run_duration verbose pdr_error
          q_ful_resolution latency vm pkt_size fe_src_start_ip fe_src_stop_ip
          fe_dst_start_ip fe_dst_stop_ip drop_rate_interval output ports_list))
  = [EvDisconnect].
Proof.
  intros H.
  destruct (reaches_search cfg H)
    as (table & dir_0 & ports & r & prim & _ & _ & _ & _ & _ & _ & _ & R).
  rewrite R. cbn [prepend fst]. rewrite filter_app, tail_filter_disconnect.
  reflexivity.
Qed.

(** C4. When a run that reached the search returns, the value returned is
    the serialized result if [output] is ['json'], and [None] for every
    other [output]. *)
Theorem json_only_when_requested cfg tr v :
  ndr_benchmark_test W server core_mask pdr iteration_duration
    ndr_results setup_name first_run_duration verbose pdr_error
    q_ful_resolution latency vm pkt_size fe_src_start_ip fe_src_stop_ip
    fe_dst_start_ip fe_dst_stop_ip drop_rate_interval output ports_list
  = (tr, Returned v) ->
  In (EvFindNdr cfg) tr ->
  exists j,
    ext_to_json W = LOk j /\
    (output = VStr "json" -> v = Some j) /\
    (output <> VStr "json" -> v = None).
Proof.
  intros E H.
  assert (H' : In (EvFindNdr cfg) (fst the_run)) by (rewrite E; exact H).
  destruct (reaches_search cfg H')
    as (table & dir_0 & ports & r & prim & _ & _ & _ & _ & _ & _ & _ & R).
  rewrite R in E. unfold prepend in E.
  destruct (passed <- find_ndr_block W cfg latency true ;;
            report_block W output passed) as [t o] eqn:T.
  cbn [fst snd] in E. injection E as _ ->.
  destruct (tail_Returned _ _ _ T) as (j & Ej & -> & _).
  exists j. split; [ exact Ej | ].
  destruct (eq_str output "json") eqn:Q.
  - apply eq_str_spec in Q. split; [ reflexivity | congruence ].
  - split; [ | reflexivity ].
    intros O. apply eq_str_spec in O. congruence.
Qed.

(** C5. With the latency flag set, the streams attached are the streams
    the builder produced, in their order, followed by the one stream [s1],
    a single burst tagged with latency flow statistics. *)
Theorem latency_stream_appended streams ports :
  truthy latency = true ->
  In (EvAddStreams streams ports)
    (fst
       (ndr_benchmark_test W server core_mask pdr iteration_duration
          ndr_results setup_name first_run_duration verbose pdr_error
          q_ful_resolution latency vm pkt_size fe_src_start_ip fe_src_stop_ip
          fe_dst_start_ip fe_dst_stop_ip drop_rate_interval output ports_list)) ->
  exists prim,
    snd (build_streams_for_bench W pkt_size vm fe_src_start_ip fe_src_stop_ip
           fe_dst_start_ip fe_dst_stop_ip 0) = Returned prim /\
    streams = prim ++ [s1] /\
    mode s1 = STLTXSingleBurst 1000 1000 /\
    flow_stats s1 = Some (STLFlowLatencyStats 5).
Proof.
  intros L H.
  destruct setup_cases
    as [(table & dir_0 & ports' & r & prim & G & Em & Sp & V & Eb & Eg & R) | E].
  - exists prim.
    split; [ now rewrite (build_streams_returns _ _ _ _ _ _ _ _ _ V Eb Eg) | ].
    split; [ | split; reflexivity ].
    rewrite R, L in H. cbn [prepend fst] in H.
    apply in_app_or in H. destruct H as [H | H].
    { cbn in H. repeat (destruct H as [H | H]; [ discriminate H | ]).
      contradiction. }
    revert H.
    destruct (ext_add_streams W (prim ++ [s1]) dir_0) as [[] | e1];
      [ rewrite bind_call_LOk
      | rewrite bind_call_LRaise; cbn; intros [H | []]; congruence ].
    destruct (ext_NdrBenchConfig W (the_config ports')) as [[] | e2];
      [ rewrite bind_call_LOk, prepend_prepend
      | rewrite bind_call_LRaise; cbn; intros [H | [H | []]]; congruence ].
    destruct (ext_NdrBench W (the_config ports')) as [[] | e3];
      [ rewrite bind_call_LOk, prepend_prepend
      | rewrite bind_call_LRaise; cbn;
        intros [H | [H | [H | []]]]; congruence ].
    cbn [prepend fst app]. intros H.
    destruct H as [H | [H | [H | H]]]; try congruence.
    apply tail_events in H.
    destruct H as [H | [H | [H | [H | [text H]]]]]; discriminate H.
  - apply E in H. contradiction.
Qed.

(** C7. In every run that reaches the search the calls are, in this order:
    the client is created and connected, the ports are reset, the ports
    are mapped, the streams are built, then attached to the transmit side
    of the selected ports, the configuration is constructed with the
    selected ports, the bench object is built and the search is invoked;
    [disconnect] comes after the search.  The selected ports are the
    explicit list when one with ports in it is given, and the first
    bidirectional pair of the port map when none is given. *)
Theorem operations_in_order cfg :
  In (EvFindNdr cfg)
    (fst
       (ndr_benchmark_test W server core_mask pdr iteration_duration
          ndr_results setup_name first_run_duration verbose pdr_error
          q_ful_resolution latency vm pkt_size fe_src_start_ip fe_src_stop_ip
          fe_dst_start_ip fe_dst_stop_ip drop_rate_interval output ports_list)) ->
  exists table r prim dir_0 post,
    ext_stl_map_ports W = LOk table /\
    select_ports ports_list table = ret (dir_0, Cfg.ports cfg) /\
    (forall l, ports_list = Some l -> l <> [] -> Cfg.ports cfg = l) /\
    (ports_list = None ->
     exists p0 p1 rest,
       bi table = (p0, p1) :: rest /\ Cfg.ports cfg = [p0; p1] /\ dir_0 = [p0]) /\
    fst
       (ndr_benchmark_test W server core_mask pdr iteration_duration
          ndr_results setup_name first_run_duration verbose pdr_error
          q_ful_resolution latency vm pkt_size fe_src_start_ip fe_src_stop_ip
          fe_dst_start_ip fe_dst_stop_ip drop_rate_interval output ports_list) =
    [EvSTLClient server; EvConnect; EvReset; EvMapPorts; EvSTLBench;
     EvGetStreams
       (overridden_range r fe_src_start_ip fe_src_stop_ip fe_dst_start_ip
          fe_dst_stop_ip) pkt_size vm 0;
     EvAddStreams (if truthy latency then prim ++ [s1] else prim) dir_0;
     EvNdrBenchConfig cfg; EvNdrBench cfg; EvFindNdr cfg] ++ post /\
    In EvDisconnect post.
Proof.
  intros H.
  destruct (reaches_search cfg H)
    as (table & dir_0 & ports & r & prim & G & Em & Sp & V & Eb & Eg & C & R).
  destruct (tail_head cfg) as (post & Tl & Dp).
  exists table, r, prim, dir_0, post.
  assert (P : Cfg.ports cfg = ports) by (rewrite C; reflexivity).
  rewrite P.
  split; [ exact Em | ]. split; [ exact Sp | ].
  split; [ | split; [ | split; [ | exact Dp ] ] ].
  - intros l -> Hl. rewrite (select_ports_explicit l table Hl) in Sp.
    unfold ret in Sp. congruence.
  - intros ->. rewrite (select_ports_auto None table eq_refl) in Sp.
    destruct (bi table) as [ | [p0 p1] rest]; [ discriminate Sp | ].
    unfold ret in Sp. injection Sp as <- <-.
    exists p0, p1, rest. repeat split.
  - rewrite R. cbn [prepend fst]. rewrite Tl. reflexivity.
Qed.

(** What a run whose search raises the client error does. *)
Lemma search_raises_STLError cfg msg :
  In (EvFindNdr cfg) (fst the_run) ->
  ext_find_ndr W cfg = LRaise (LibSTLError msg) ->
  (exists pre,
      fst the_run = pre ++ [EvFindNdr cfg; EvPrint msg; EvDisconnect]) /\
  exit_status (snd the_run) = 1.
Proof.
  intros H E.
  destruct (reaches_search cfg H)
    as (table & dir_0 & ports & r & prim & _ & _ & _ & _ & _ & _ & _ & R).
  destruct (tail_STLError cfg msg E) as [Tt Ts].
  rewrite R. cbn [prepend fst snd]. rewrite Tt. split; [ | exact Ts ].
  eexists. reflexivity.
Qed.

End Runs.

(** C8. With a falsy [vm] the local [stl_bench] of
    [build_streams_for_bench] is never bound: the function makes no call
    and raises the unbound-local error instead of returning streams. *)
Theorem build_streams_needs_vm (W : World)
    (size vm src_start_ip src_stop_ip dest_start_ip dest_stop_ip : value)
    (direction : Z) :
  truthy vm = false ->
  build_streams_for_bench W size vm src_start_ip src_stop_ip dest_start_ip
    dest_stop_ip direction
  = ([], Raised (UnboundLocalError "stl_bench")).
Proof. apply build_streams_falsy. Qed.

(** ** The claims about the script *)

Lemma script_eq W args :
  script W args = (fst (run_tests W args), exit_status (snd (run_tests W args))).
Proof. unfold script. destruct (run_tests W args); reflexivity. Qed.

(** C2. When the search is invoked and raises the client error, the error
    is printed, then [c.disconnect()] is invoked, and that is where the run
    ends: the process exits with status 1. *)
Theorem client_error_exits_nonzero W args cfg msg :
  In (EvFindNdr cfg) (fst (script W args)) ->
  ext_find_ndr W cfg = LRaise (LibSTLError msg) ->
  (exists pre,
      fst (script W args) = pre ++ [EvFindNdr cfg; EvPrint msg; EvDisconnect]) /\
  snd (script W args) = 1 /\
  snd (script W args) <> 0.
Proof.
  rewrite script_eq. cbn [fst snd]. unfold run_tests. intros H E.
  destruct (search_raises_STLError _ _ _ _ _ _ _ _ _ _ _ _ _ _ _ _ _ _ _ _ _ _ _ H E)
    as [P S].
  split; [ exact P | ]. rewrite S. split; [ reflexivity | discriminate ].
Qed.

(** C6, at a search that raises the client error: the run ends with the
    error message and [disconnect], the process exits with status 1, and the
    fail message is not printed. *)
Theorem failed_message_not_printed :
  script timeout_world Args.defaults =
  (setup_events (VStr "127.0.0.1") default_ip_range (VInt 64) (VStr "none")
     [bench_stream; s1] [0] default_config
   ++ [EvFindNdr default_config; EvPrint "timeout"; EvDisconnect],
   1) /\
  ~ In (EvPrint failed_message) (fst (script timeout_world Args.defaults)).
Proof.
  assert (E : script timeout_world Args.defaults =
              (setup_events (VStr "127.0.0.1") default_ip_range (VInt 64)
                 (VStr "none") [bench_stream; s1] [0] default_config
               ++ [EvFindNdr default_config; EvPrint "timeout"; EvDisconnect],
               1)) by reflexivity.
  split; [ exact E | ].
  rewrite E. cbn [fst setup_events app In].
  intros H. repeat (destruct H as [H | H]; [ discriminate H | ]). exact H.
Qed.

(** C9. [setup_name] and [max_iterations] have no effect: two command
    lines that differ only there lead to the same events (the same streams
    on the same ports, the same configuration, the same prints), the same
    returned value and the same exit status. *)
Theorem setup_name_and_max_iterations_unused W args name iterations :
  run_tests W (Args.with_max_iterations iterations (Args.with_setup_name name args))
  = run_tests W args /\
  script W (Args.with_max_iterations iterations (Args.with_setup_name name args))
  = script W args.
Proof. split; reflexivity. Qed.

(** C10. An explicit empty port list runs exactly as no port list: the
    length check is skipped, the run starts by creating the client instead of
    aborting, and the driver goes on to the automatic selection: once the
    ports are mapped and the streams built, [add_streams] is called on the
    first element of the first bidirectional pair of the port map, and the
    configuration is then constructed with that pair as its ports. *)
Theorem empty_ports_list_as_none W
    server core_mask pdr iteration_duration ndr_results setup_name
    first_run_duration verbose pdr_error q_ful_resolution latency vm pkt_size
    fe_src_start_ip fe_src_stop_ip fe_dst_start_ip fe_dst_stop_ip
    drop_rate_interval output :
  ndr_benchmark_test W server core_mask pdr iteration_duration ndr_results
    setup_name first_run_duration verbose pdr_error q_ful_resolution latency
    vm pkt_size fe_src_start_ip fe_src_stop_ip fe_dst_start_ip fe_dst_stop_ip
    drop_rate_interval output (Some [])
  = ndr_benchmark_test W server core_mask pdr iteration_duration ndr_results
      setup_name first_run_duration verbose pdr_error q_ful_resolution latency
      vm pkt_size fe_src_start_ip fe_src_stop_ip fe_dst_start_ip fe_dst_stop_ip
      drop_rate_interval output None
  /\ (exists rest,
         fst (ndr_benchmark_test W server core_mask pdr iteration_duration
                ndr_results setup_name first_run_duration verbose pdr_error
                q_ful_resolution latency vm pkt_size fe_src_start_ip
                fe_src_stop_ip fe_dst_start_ip fe_dst_stop_ip
                drop_rate_interval output (Some []))
         = EvSTLClient server :: rest)
  /\ (forall table,
         select_ports (Some []) table =
         match bi table with
         | [] => raise (IndexError "list index out of range")
         | (p0, p1) :: _ => ret ([p0], [p0; p1])
         end)
  /\ (forall table p0 p1 others r prim,
         ext_STLClient W server = LOk tt ->
         ext_connect W = LOk tt ->
         ext_reset W = LOk tt ->
         ext_stl_map_ports W = LOk table ->
         bi table = (p0, p1) :: others ->
         truthy vm = true ->
         ext_STLBench W = LOk r ->
         ext_get_streams W
           (overridden_range r fe_src_start_ip fe_src_stop_ip fe_dst_start_ip
              fe_dst_stop_ip) pkt_size vm 0 = LOk prim ->
         exists post,
           fst (ndr_benchmark_test W server core_mask pdr iteration_duration
                  ndr_results setup_name first_run_duration verbose pdr_error
                  q_ful_resolution latency vm pkt_size fe_src_start_ip
                  fe_src_stop_ip fe_dst_start_ip fe_dst_stop_ip
                  drop_rate_interval output (Some []))
           = [EvSTLClient server; EvConnect; EvReset; EvMapPorts; EvSTLBench;
              EvGetStreams
                (overridden_range r fe_src_start_ip fe_src_stop_ip
                   fe_dst_start_ip fe_dst_stop_ip) pkt_size vm 0;
              EvAddStreams (if truthy latency then prim ++ [s1] else prim) [p0]]
             ++ post /\
           (ext_add_streams W (if truthy latency then prim ++ [s1] else prim)
              [p0] = LOk tt ->
            exists post',
              post =
              EvNdrBenchConfig
                {| Cfg.ports := [p0; p1]; Cfg.pkt_size := pkt_size;
                   Cfg.vm := vm;
                   Cfg.iteration_duration := iteration_duration;
                   Cfg.q_ful_resolution := q_ful_resolution;
                   Cfg.first_run_duration := first_run_duration;
                   Cfg.pdr := pdr; Cfg.pdr_error := pdr_error;
                   Cfg.ndr_results := ndr_results;
                   Cfg.latency := latency; Cfg.core_mask := core_mask;
                   Cfg.verbose := verbose;
                   Cfg.drop_rate_interval := drop_rate_interval |}
              :: post')).
Proof.
  split; [ reflexivity | ]. split; [ | split; [ reflexivity | ] ].
  - unfold ndr_benchmark_test. cbn [truthy_list andb].
    destruct (ext_STLClient W server) as [[] | e].
    + rewrite bind_call_LOk. cbn [prepend fst app]. eexists; reflexivity.
    + rewrite bind_call_LRaise. eexists; reflexivity.
  - intros table p0 p1 others r prim E1 E2 E3 E4 B V Eb Eg.
    unfold ndr_benchmark_test. cbn [truthy_list andb].
    rewrite E1, bind_call_LOk, E2, bind_call_LOk, E3, bind_call_LOk, E4,
      bind_call_LOk, !prepend_prepend.
    rewrite (select_ports_auto (Some []) table eq_refl), B.
    unfold ret at 1. rewrite bind_Returned, prepend_prepend.
    rewrite (build_streams_returns W _ _ _ _ _ _ _ _ _ V Eb Eg).
    rewrite bind_Returned, prepend_prepend. cbn [fst snd app].
    destruct (ext_add_streams W (if truthy latency then prim ++ [s1] else prim)
                [p0]) as [[] | e1].
    + rewrite bind_call_LOk, prepend_prepend.
      match goal with
      | |- context [bind (call (EvNdrBenchConfig ?c) ?o) _] =>
          destruct o as [[] | e2]
      end.
      * rewrite bind_call_LOk, prepend_prepend. cbn [prepend fst app].
        eexists. split; [ reflexivity | ]. intros _. eexists. reflexivity.
      * rewrite bind_call_LRaise. cbn [prepend fst app].
        eexists. split; [ reflexivity | ]. intros _. eexists. reflexivity.
    + rewrite bind_call_LRaise. cbn [prepend fst app].
      exists []. split; [ reflexivity | ]. intros H. discriminate H.
Qed.

(** ** The statements at concrete runs *)

Local Abbreviation on_args thm W a :=
  (thm W (Args.server a) (Args.core_mask a) (Args.pdr a)
     (Args.iteration_duration a) (Args.ndr_results a) (Args.setup_name a)
     (Args.first_run_duration a) (Args.verbose a) (Args.pdr_error a)
     (Args.q_ful_resolution a) (Args.latency a) (Args.vm a) (Args.size a)
     (Args.fe_src_start_ip a) (Args.fe_src_stop_ip a) (Args.fe_dst_start_ip a)
     (Args.fe_dst_stop_ip a) (Args.drop_rate_interval a) (Args.output a)).

Lemma default_run_reaches_search :
  In (EvFindNdr default_config) (fst (run_tests loop_world Args.defaults)).
Proof. vm_compute. do 9 right. left. reflexivity. Defined.

Lemma odd_ports_list_aborts_witness :
  Nat.odd (List.length [0; 1; 2]) = true /\
  run_tests loop_world (Args.with_ports_list (Some [0; 1; 2]) Args.defaults)
  = ([EvPrint "illegal ports list"], Returned None).
Proof.
  split; [ reflexivity | ].
  exact (on_args odd_ports_list_aborts loop_world Args.defaults [0; 1; 2] eq_refl).
Defined.

Lemma client_error_exits_nonzero_witness :
  In (EvFindNdr default_config) (fst (script timeout_world Args.defaults)) /\
  ext_find_ndr timeout_world default_config = LRaise (LibSTLError "timeout") /\
  (exists pre,
      fst (script timeout_world Args.defaults)
      = pre ++ [EvFindNdr default_config; EvPrint "timeout"; EvDisconnect]) /\
  snd (script timeout_world Args.defaults) = 1 /\
  snd (script timeout_world Args.defaults) <> 0.
Proof.
  assert (H : In (EvFindNdr default_config)
                 (fst (script timeout_world Args.defaults)))
    by (vm_compute; do 9 right; left; reflexivity).
  split; [ exact H | ]. split; [ reflexivity | ].
  exact (client_error_exits_nonzero timeout_world Args.defaults default_config
           "timeout" H eq_refl).
Defined.

Lemma disconnect_exactly_once_witness :
  In (EvFindNdr default_config) (fst (run_tests loop_world Args.defaults)) /\
  filter is_disconnect (fst (run_tests loop_world Args.defaults)) = [EvDisconnect].
Proof.
  split; [ exact default_run_reaches_search | ].
  exact (on_args disconnect_exactly_once loop_world Args.defaults None
           default_config default_run_reaches_search).
Defined.

Lemma json_only_when_requested_witness :
  run_tests loop_world (Args.with_output (VStr "json") Args.defaults)
  = (fst (run_tests loop_world Args.defaults), Returned (Some "{}")) /\
  In (EvFindNdr default_config) (fst (run_tests loop_world Args.defaults)) /\
  exists j,
    ext_to_json loop_world = LOk j /\
    (VStr "json" = VStr "json" -> Some "{}" = Some j) /\
    (VStr "json" <> VStr "json" -> Some "{}" = @None string).
Proof.
  split; [ reflexivity | ]. split; [ exact default_run_reaches_search | ].
  exact (on_args json_only_when_requested loop_world
           (Args.with_output (VStr "json") Args.defaults) None default_config
           (fst (run_tests loop_world Args.defaults)) (Some "{}")
           eq_refl default_run_reaches_search).
Defined.

Lemma latency_stream_appended_witness :
  truthy (VBool true) = true /\
  In (EvAddStreams [bench_stream; s1] [0])
     (fst (run_tests loop_world Args.defaults)) /\
  exists prim,
    snd (build_streams_for_bench loop_world (VInt 64) (VStr "none")
           VNone VNone VNone VNone 0) = Returned prim /\
    [bench_stream; s1] = prim ++ [s1] /\
    mode s1 = STLTXSingleBurst 1000 1000 /\
    flow_stats s1 = Some (STLFlowLatencyStats 5).
Proof.
  assert (H : In (EvAddStreams [bench_stream; s1] [0])
                 (fst (run_tests loop_world Args.defaults)))
    by (vm_compute; do 6 right; left; reflexivity).
  split; [ reflexivity | ]. split; [ exact H | ].
  exact (on_args latency_stream_appended loop_world Args.defaults None
           [bench_stream; s1] [0] eq_refl H).
Defined.

Lemma operations_in_order_witness :
  In (EvFindNdr default_config) (fst (run_tests loop_world Args.defaults)) /\
  exists table r prim dir_0 post,
    ext_stl_map_ports loop_world = LOk table /\
    select_ports None table = ret (dir_0, Cfg.ports default_config) /\
    (forall l, None = Some l -> l <> [] -> Cfg.ports default_config = l) /\
    (@None (list Z) = None ->
     exists p0 p1 rest,
       bi table = (p0, p1) :: rest /\
       Cfg.ports default_config = [p0; p1] /\ dir_0 = [p0]) /\
    fst (run_tests loop_world Args.defaults) =
    [EvSTLClient (VStr "127.0.0.1"); EvConnect; EvReset; EvMapPorts; EvSTLBench;
     EvGetStreams (overridden_range r VNone VNone VNone VNone)
       (VInt 64) (VStr "none") 0;
     EvAddStreams (if truthy (VBool true) then prim ++ [s1] else prim) dir_0;
     EvNdrBenchConfig default_config; EvNdrBench default_config;
     EvFindNdr default_config] ++ post /\
    In EvDisconnect post.
Proof.
  split; [ exact default_run_reaches_search | ].
  exact (on_args operations_in_order loop_world Args.defaults None
           default_config default_run_reaches_search).
Defined.

Lemma build_streams_needs_vm_witness :
  truthy (VStr EmptyString) = false /\
  build_streams_for_bench loop_world (VInt 64) (VStr EmptyString)
    VNone VNone VNone VNone 0
  = ([], Raised (UnboundLocalError "stl_bench")).
Proof.
  split; [ reflexivity | ].
  exact (build_streams_needs_vm loop_world (VInt 64) (VStr EmptyString)
           VNone VNone VNone VNone 0 eq_refl).
Defined.

(** * Further properties of the tool *)

(** ** The stream builder *)

Section Builder.

Variable W : World.
Variables size vm src_start_ip src_stop_ip dest_start_ip dest_stop_ip : value.
Variable direction : Z.

Local Abbreviation the_build :=
  (build_streams_for_bench W size vm src_start_ip src_stop_ip dest_start_ip
     dest_stop_ip direction).

(** Every way [build_streams_for_bench] can go. *)
Lemma build_streams_outcomes :
  (truthy vm = false /\ the_build = ([], Raised (UnboundLocalError "stl_bench"))) \/
  (truthy vm = true /\
   exists e, ext_STLBench W = LRaise e /\
             the_build = ([EvSTLBench], Raised (exn_of_lib e))) \/
  (truthy vm = true /\
   exists r e,
     ext_STLBench W = LOk r /\
     ext_get_streams W
       (overridden_range r src_start_ip src_stop_ip dest_start_ip dest_stop_ip)
       size vm direction = LRaise e /\
     the_build =
     ([EvSTLBench;
       EvGetStreams
         (overridden_range r src_start_ip src_stop_ip dest_start_ip dest_stop_ip)
         size vm direction],
      Raised (exn_of_lib e))) \/
  (truthy vm = true /\
   exists r prim,
     ext_STLBench W = LOk r /\
     ext_get_streams W
       (overridden_range r src_start_ip src_stop_ip dest_start_ip dest_stop_ip)
       size vm direction = LOk prim /\
     the_build =
     ([EvSTLBench;
       EvGetStreams
         (overridden_range r src_start_ip src_stop_ip dest_start_ip dest_stop_ip)
         size vm direction],
      Returned prim)).
Proof.
  destruct (truthy vm) eqn:V.
  - right. rewrite (build_streams_truthy W _ _ _ _ _ _ _ V).
    destruct (ext_STLBench W) as [r | e0] eqn:E0.
    + right. rewrite bind_call_LOk.
      destruct (ext_get_streams W
                  (overridden_range r src_start_ip src_stop_ip dest_start_ip
                     dest_stop_ip) size vm direction) as [prim | e1] eqn:E1.
      * right. split; [ reflexivity | ]. exists r, prim. auto.
      * left. split; [ reflexivity | ]. exists r, e1. auto.
    + left. split; [ reflexivity | ]. exists e0. auto.
  - left. split; [ reflexivity | ]. now apply build_streams_falsy.
Qed.

(** X1. [get_streams] is called with the size, the field engine and the
    direction given, on the range of the new [STLBench] in which each of the
    four bounds is replaced by its override when the override is truthy, and
    kept when it is [None] or empty: one override does not touch another
    bound. *)
Theorem ip_overrides_independent ipr size' vm' direction' :
  In (EvGetStreams ipr size' vm' direction')
     (fst (build_streams_for_bench W size vm src_start_ip src_stop_ip
             dest_start_ip dest_stop_ip direction)) ->
  size' = size /\ vm' = vm /\ direction' = direction /\
  exists r,
    ext_STLBench W = LOk r /\
    src_start ipr = (if truthy src_start_ip then src_start_ip else src_start r) /\
    src_end ipr = (if truthy src_stop_ip then src_stop_ip else src_end r) /\
    dst_start ipr = (if truthy dest_start_ip then dest_start_ip else dst_start r) /\
    dst_end ipr = (if truthy dest_stop_ip then dest_stop_ip else dst_end r).
Proof.
  intros H.
  assert (K : exists r,
             ext_STLBench W = LOk r /\
             EvGetStreams ipr size' vm' direction' =
             EvGetStreams
               (overridden_range r src_start_ip src_stop_ip dest_start_ip
                  dest_stop_ip) size vm direction).
  { destruct build_streams_outcomes
      as [[_ E] | [(_ & e & _ & E) | [(_ & r & e & Eb & _ & E)
                                     | (_ & r & prim & Eb & _ & E)]]];
      rewrite E in H; cbn [fst In] in H.
    - contradiction.
    - destruct H as [H | []]. discriminate H.
    - destruct H as [H | [H | []]]; [ discriminate H | ]. exists r. auto.
    - destruct H as [H | [H | []]]; [ discriminate H | ]. exists r. auto. }
  destruct K as (r & Eb & K). injection K as -> -> -> ->.
  repeat (split; [ reflexivity | ]). exists r. split; [ exact Eb | ].
  unfold overridden_range.
  destruct (truthy src_start_ip), (truthy src_stop_ip),
    (truthy dest_start_ip), (truthy dest_stop_ip); repeat split.
Qed.

(** X2. [build_streams_for_bench] raises the unbound-local error exactly
    when [vm] is falsy: with a truthy [vm] it returns streams or passes on an
    exception of the library. *)
Theorem unbound_local_iff_falsy_vm :
  (exists t,
      build_streams_for_bench W size vm src_start_ip src_stop_ip dest_start_ip
        dest_stop_ip direction
      = (t, Raised (UnboundLocalError "stl_bench")))
  <-> truthy vm = false.
Proof.
  split.
  - intros [t H].
    destruct build_streams_outcomes
      as [[V _] | [(_ & e & _ & E) | [(_ & r & e & _ & _ & E)
                                     | (_ & r & prim & _ & _ & E)]]];
      [ exact V | | | ]; rewrite E in H; try discriminate H;
      destruct e; discriminate H.
  - intros V. eexists. now apply build_streams_falsy.
Qed.

End Builder.

(** ** Every run *)

Ltac setup_failed :=
  unfold run_case; right; left; split; [ reflexivity | ];
  eexists; eexists; split; [ reflexivity | ];
  split; [ reflexivity | ];
  match goal with
  | |- context [exn_of_lib ?e] => destruct e; reflexivity
  | _ => reflexivity
  end.

Ltac setup_step :=
  match goal with
  | |- context [bind (call ?ev ?r) _] =>
      destruct r as [? | ?] eqn:?;
      [ rewrite bind_call_LOk; rewrite ?prepend_prepend; cbn [app]
      | rewrite bind_call_LRaise; cbn [prepend fst snd app]; setup_failed ]
  end.

Ltac tail_cases W cfg latency output :=
  rewrite ?find_ndr_block_eq; unfold search_events, report_block;
  destruct (ext_find_ndr W cfg) as [[] | [? | ? ?]] eqn:?;
  [ destruct (truthy (ext_config_verbose W cfg)) eqn:?;
    [ destruct (ext_print_final W latency) as [[] | [? | ? ?]] eqn:? | ] | | ];
  destruct (ext_disconnect W) as [[] | ?] eqn:?;
  destruct (ext_to_json W) as [? | ?] eqn:?;
  destruct (eq_str output "json") eqn:?;
  cbv [bind call print ret app fst snd].

Section AllRuns.

Variable W : World.
Variables server core_mask pdr iteration_duration ndr_results setup_name
  first_run_duration verbose pdr_error q_ful_resolution latency vm pkt_size
  fe_src_start_ip fe_src_stop_ip fe_dst_start_ip fe_dst_stop_ip
  drop_rate_interval output : value.
Variable ports_list : ports_arg.

Local Abbreviation the_run :=
  (ndr_benchmark_test W server core_mask pdr iteration_duration ndr_results
     setup_name first_run_duration verbose pdr_error q_ful_resolution latency
     vm pkt_size fe_src_start_ip fe_src_stop_ip fe_dst_start_ip fe_dst_stop_ip
     drop_rate_interval output ports_list).

Local Abbreviation the_guard :=
  (truthy_list ports_list
   && negb (Z.of_nat (List.length (list_of ports_list)) mod 2 =? 0)).

Lemma run_cases : run_case the_guard the_run.
Proof.
  unfold ndr_benchmark_test.
  destruct the_guard eqn:G.
  { left. split; reflexivity. }
  do 4 setup_step.
  match goal with T : port_table |- _ => rename T into table end.
  pose proof (select_ports_trace ports_list table) as St.
  destruct (select_ports ports_list table) as [ts [[dir_0 ports] | e]] eqn:Sp;
    cbn [fst] in St; subst ts.
  2:{ rewrite bind_Raised. cbn [prepend fst snd app].
      unfold select_ports in Sp. destruct (truthy_list ports_list);
        [ discriminate Sp | ].
      destruct (bi table) as [ | [p0 p1] rest]; [ | discriminate Sp ].
      injection Sp as <-. setup_failed. }
  rewrite bind_Returned, prepend_prepend. cbn [app fst snd].
  destruct (build_streams_outcomes W pkt_size vm fe_src_start_ip fe_src_stop_ip
              fe_dst_start_ip fe_dst_stop_ip 0)
    as [[_ E] | [(_ & e & _ & E) | [(_ & r & e & _ & _ & E)
                                   | (_ & r & prim & _ & _ & E)]]];
    rewrite E.
  - rewrite bind_Raised. cbn [prepend fst snd app]. setup_failed.
  - rewrite bind_Raised. cbn [prepend fst snd app]. setup_failed.
  - rewrite bind_Raised. cbn [prepend fst snd app]. setup_failed.
  - rewrite bind_Returned, prepend_prepend. cbn [app fst snd].
    do 3 setup_step.
    unfold run_case. right; right. split; [ reflexivity | ].
    match goal with
    | |- context [find_ndr_block W ?c latency true] =>
        exists c; destruct (tail_head W latency output c) as (post & Tl & _)
    end.
    cbn [prepend fst]. rewrite Tl.
    apply in_or_app. right. now left.
Qed.

Lemma even_length_mod (n : nat) : Nat.odd n = false -> Z.of_nat n mod 2 = 0.
Proof.
  intros H. rewrite <- Nat.negb_even in H. apply negb_false_iff in H.
  apply Nat.even_spec in H. destruct H as [k ->].
  replace (Z.of_nat (2 * k)) with (0 + Z.of_nat k * 2) by lia.
  now rewrite Z_mod_plus_full.
Qed.

(** The test of lines 36-37 is true exactly at an explicit list of odd
    length. *)
Lemma guard_spec :
  the_guard = true <->
  exists l, ports_list = Some l /\ Nat.odd (List.length l) = true.
Proof.
  split.
  - intros G. apply andb_true_iff in G. destruct G as [T N].
    destruct ports_list as [[ | x l] | ]; try discriminate T.
    exists (x :: l). split; [ reflexivity | ].
    destruct (Nat.odd (List.length (x :: l))) eqn:O; [ reflexivity | ].
    cbn [list_of] in N. rewrite (even_length_mod _ O) in N. discriminate N.
  - intros (l & -> & O). cbn [list_of]. rewrite (odd_length_mod _ O).
    destruct l; [ discriminate O | reflexivity ].
Qed.

Lemma setup_events_only (t : list event) (ev : event) :
  forallb is_setup_event t = true -> In ev t -> is_setup_event ev = true.
Proof. intros F H. rewrite forallb_forall in F. now apply F. Qed.

(** A run that gets to the search: the setup calls, then the two blocks. *)
Lemma reach_tail cfg :
  In (EvFindNdr cfg) (fst the_run) ->
  exists pre,
    forallb is_setup_event pre = true /\
    the_run =
    prepend pre
      (passed <- find_ndr_block W cfg latency true ;;
       report_block W output passed).
Proof.
  intros H.
  destruct (reaches_search W server core_mask pdr iteration_duration ndr_results
              setup_name first_run_duration verbose pdr_error q_ful_resolution
              latency vm pkt_size fe_src_start_ip fe_src_stop_ip fe_dst_start_ip
              fe_dst_stop_ip drop_rate_interval output ports_list cfg H)
    as (table & dir_0 & ports & r & prim & _ & _ & _ & _ & _ & _ & _ & R).
  eexists. split; [ | exact R ]. reflexivity.
Qed.

(** X3. [c.disconnect()] is invoked in a run if and only if the search is:
    a run that fails between [connect] and the search (a reset, mapping,
    stream or constructor error, no bidirectional pair, a falsy [vm]) leaves
    without disconnecting. *)
Theorem disconnect_iff_search :
  In EvDisconnect
     (fst (ndr_benchmark_test W server core_mask pdr iteration_duration
             ndr_results setup_name first_run_duration verbose pdr_error
             q_ful_resolution latency vm pkt_size fe_src_start_ip
             fe_src_stop_ip fe_dst_start_ip fe_dst_stop_ip drop_rate_interval
             output ports_list))
  <-> exists cfg,
      In (EvFindNdr cfg)
         (fst (ndr_benchmark_test W server core_mask pdr iteration_duration
                 ndr_results setup_name first_run_duration verbose pdr_error
                 q_ful_resolution latency vm pkt_size fe_src_start_ip
                 fe_src_stop_ip fe_dst_start_ip fe_dst_stop_ip
                 drop_rate_interval output ports_list)).
Proof.
  split.
  - intros H.
    destruct run_cases as [[_ E] | [(_ & t & e & E & F & _) | [_ C]]].
    + rewrite E in H. cbn in H. destruct H as [H | []]. discriminate H.
    + rewrite E in H. cbn [fst] in H.
      apply (setup_events_only _ _ F) in H. discriminate H.
    + exact C.
  - intros [cfg H].
    destruct (reach_tail cfg H) as (pre & _ & R).
    destruct (tail_head W latency output cfg) as (post & Tl & Dp).
    rewrite R. cbn [prepend fst]. rewrite Tl.
    apply in_or_app. right. now right.
Qed.

(** X4. [ndr_benchmark_test] stops at the port list, printing the error and
    returning [None], exactly when the port list is an explicit list of odd
    length: no even, empty or absent list stops there. *)
Theorem aborts_iff_odd_ports_list :
  ndr_benchmark_test W server core_mask pdr iteration_duration ndr_results
    setup_name first_run_duration verbose pdr_error q_ful_resolution latency
    vm pkt_size fe_src_start_ip fe_src_stop_ip fe_dst_start_ip fe_dst_stop_ip
    drop_rate_interval output ports_list
  = ([EvPrint "illegal ports list"], Returned None)
  <-> exists l, ports_list = Some l /\ Nat.odd (List.length l) = true.
Proof.
  rewrite <- guard_spec. split.
  - intros H.
    destruct run_cases as [[G _] | [(_ & t & e & E & _) | (_ & cfg & C)]].
    + exact G.
    + rewrite E in H. discriminate H.
    + rewrite H in C. cbn in C. destruct C as [C | []]. discriminate C.
  - intros G.
    destruct run_cases as [[_ E] | [(G' & _) | (G' & _)]];
      [ exact E | congruence | congruence ].
Qed.

(** X5. An error before the search is not handled: when the port list does
    not stop the run and the search is not reached, the run ends with an
    exception (exit status 1), nothing is printed, not even for a client
    error, and [disconnect] is not invoked. *)
Theorem setup_error_not_handled :
  (forall l, ports_list = Some l -> Nat.odd (List.length l) = false) ->
  (forall cfg,
      ~ In (EvFindNdr cfg)
          (fst (ndr_benchmark_test W server core_mask pdr iteration_duration
                  ndr_results setup_name first_run_duration verbose pdr_error
                  q_ful_resolution latency vm pkt_size fe_src_start_ip
                  fe_src_stop_ip fe_dst_start_ip fe_dst_stop_ip
                  drop_rate_interval output ports_list))) ->
  exists t e,
    ndr_benchmark_test W server core_mask pdr iteration_duration ndr_results
      setup_name first_run_duration verbose pdr_error q_ful_resolution latency
      vm pkt_size fe_src_start_ip fe_src_stop_ip fe_dst_start_ip fe_dst_stop_ip
      drop_rate_interval output ports_list
    = (t, Raised e) /\
    exit_status (@Raised (option string) e) = 1 /\
    (forall text, ~ In (EvPrint text) t) /\
    ~ In EvDisconnect t.
Proof.
  intros Even Never.
  destruct run_cases as [[G _] | [(_ & t & e & E & F & X) | (_ & cfg & C)]].
  - apply guard_spec in G. destruct G as (l & P & O).
    rewrite (Even l P) in O. discriminate O.
  - exists t, e. split; [ exact E | ]. split; [ exact X | ].
    split; [ intros text H | intros H ];
      apply (setup_events_only _ _ F) in H; discriminate H.
  - exfalso. exact (Never cfg C).
Qed.

Lemma guard_false :
  (forall l, ports_list = Some l -> Nat.odd (List.length l) = false) ->
  the_guard = false.
Proof.
  intros Even. destruct the_guard eqn:G; [ | reflexivity ].
  apply guard_spec in G. destruct G as (l & P & O).
  rewrite (Even l P) in O. discriminate O.
Qed.

Local Abbreviation the_config ports :=
  {| Cfg.ports := ports; Cfg.pkt_size := pkt_size; Cfg.vm := vm;
     Cfg.iteration_duration := iteration_duration;
     Cfg.q_ful_resolution := q_ful_resolution;
     Cfg.first_run_duration := first_run_duration;
     Cfg.pdr := pdr; Cfg.pdr_error := pdr_error;
     Cfg.ndr_results := ndr_results;
     Cfg.latency := latency; Cfg.core_mask := core_mask;
     Cfg.verbose := verbose;
     Cfg.drop_rate_interval := drop_rate_interval |}.

(** The streams, the ports they go to and the configuration of a run are
    the ones the selection and the builder gave. *)
Lemma selected_ports_used :
  ((forall streams ps, ~ In (EvAddStreams streams ps) (fst the_run)) /\
   (forall cfg, ~ In (EvNdrBenchConfig cfg) (fst the_run))) \/
  exists table dir_0 ports prim,
    ext_stl_map_ports W = LOk table /\
    select_ports ports_list table = ret (dir_0, ports) /\
    snd (build_streams_for_bench W pkt_size vm fe_src_start_ip fe_src_stop_ip
           fe_dst_start_ip fe_dst_stop_ip 0) = Returned prim /\
    (forall streams ps,
        In (EvAddStreams streams ps) (fst the_run) ->
        streams = (if truthy latency then prim ++ [s1] else prim) /\ ps = dir_0) /\
    (forall cfg,
        In (EvNdrBenchConfig cfg) (fst the_run) -> cfg = the_config ports).
Proof.
  destruct (setup_cases W server core_mask pdr iteration_duration ndr_results
              setup_name first_run_duration verbose pdr_error q_ful_resolution
              latency vm pkt_size fe_src_start_ip fe_src_stop_ip fe_dst_start_ip
              fe_dst_stop_ip drop_rate_interval output ports_list)
    as [(table & dir_0 & ports & r & prim & G & Em & Sp & V & Eb & Eg & R) | E].
  - right. exists table, dir_0, ports, prim.
    split; [ exact Em | ]. split; [ exact Sp | ].
    split; [ now rewrite (build_streams_returns W _ _ _ _ _ _ _ _ _ V Eb Eg) | ].
    rewrite R. clear R.
    assert (K : forall ev,
               In ev
                 (fst
                    (prepend
                       [EvSTLClient server; EvConnect; EvReset; EvMapPorts;
                        EvSTLBench;
                        EvGetStreams
                          (overridden_range r fe_src_start_ip fe_src_stop_ip
                             fe_dst_start_ip fe_dst_stop_ip) pkt_size vm 0]
                       (call
                          (EvAddStreams
                             (if truthy latency then prim ++ [s1] else prim)
                             dir_0)
                          (ext_add_streams W
                             (if truthy latency then prim ++ [s1] else prim)
                             dir_0) ;;;
                        call (EvNdrBenchConfig (the_config ports))
                          (ext_NdrBenchConfig W (the_config ports)) ;;;
                        call (EvNdrBench (the_config ports))
                          (ext_NdrBench W (the_config ports)) ;;;
                        passed <- find_ndr_block W (the_config ports) latency true ;;
                        report_block W output passed))) ->
               (forall streams ps,
                   ev = EvAddStreams streams ps ->
                   streams = (if truthy latency then prim ++ [s1] else prim)
                   /\ ps = dir_0) /\
               (forall cfg, ev = EvNdrBenchConfig cfg -> cfg = the_config ports)).
    { intros ev H. cbn [prepend fst] in H. apply in_app_or in H.
      destruct H as [H | H].
      { cbn in H.
        repeat (destruct H as [<- | H]; [ split; intros; discriminate | ]).
        contradiction. }
      revert H.
      destruct (ext_add_streams W
                  (if truthy latency then prim ++ [s1] else prim) dir_0)
        as [[] | e1];
        [ rewrite bind_call_LOk | rewrite bind_call_LRaise ].
      2:{ cbn. intros [<- | []]. split; intros; [ | discriminate ].
          injection H as <- <-. auto. }
      destruct (ext_NdrBenchConfig W (the_config ports)) as [[] | e2];
        [ rewrite bind_call_LOk, prepend_prepend | rewrite bind_call_LRaise ].
      2:{ cbn. intros [<- | [<- | []]]; split; intros; try discriminate.
          - injection H as <- <-. auto.
          - injection H as <-. reflexivity. }
      destruct (ext_NdrBench W (the_config ports)) as [[] | e3];
        [ rewrite bind_call_LOk, prepend_prepend | rewrite bind_call_LRaise ].
      2:{ cbn. intros [<- | [<- | [<- | []]]]; split; intros; try discriminate.
          - injection H as <- <-. auto.
          - injection H as <-. reflexivity. }
      cbn [prepend fst app].
      intros [<- | [<- | [<- | H]]]; try (split; intros; discriminate).
      - split; intros; [ | discriminate ]. injection H as <- <-. auto.
      - split; intros; [ discriminate | ]. injection H as <-. reflexivity.
      - apply tail_events in H.
        destruct H as [-> | [-> | [-> | [-> | [text ->]]]]];
          split; intros; discriminate. }
    split.
    + intros streams ps H. exact (proj1 (K _ H) streams ps eq_refl).
    + intros cfg H. exact (proj2 (K _ H) cfg eq_refl).
  - left. split.
    + intros streams ps H. exact (E _ H).
    + intros cfg H. exact (E _ H).
Qed.

(** *** The transmit side *)

Lemma range_by_2_SS (n : nat) :
  range_by_2 (S (S n)) = 0%nat :: map (fun i => S (S i)) (range_by_2 n).
Proof.
  unfold range_by_2.
  change (Nat.div2 (S (S (S n)))) with (S (Nat.div2 (S n))).
  cbn [seq map]. f_equal.
  rewrite <- seq_shift, !map_map. apply map_ext. intros k. lia.
Qed.

Lemma range_by_2_lt (n i : nat) : In i (range_by_2 n) -> (i < n)%nat.
Proof.
  revert i. induction n as [n IH] using lt_wf_ind. intros i H.
  destruct n as [ | [ | n]].
  - contradiction.
  - destruct H as [<- | []]. lia.
  - rewrite range_by_2_SS in H. destruct H as [<- | H]; [ lia | ].
    apply in_map_iff in H. destruct H as (k & <- & Hk).
    assert (k < n)%nat by (apply IH; [ lia | exact Hk ]). lia.
Qed.

Lemma dir_0_of_pairs (pairs : list (Z * Z)) :
  map (fun i => nth i (flatten_pairs pairs) 0)
      (range_by_2 (List.length (flatten_pairs pairs)))
  = map fst pairs.
Proof.
  induction pairs as [ | [a b] pairs IH]; [ reflexivity | ].
  change (flatten_pairs ((a, b) :: pairs)) with (a :: b :: flatten_pairs pairs).
  cbn [List.length]. rewrite range_by_2_SS. cbn [map nth fst]. f_equal.
  rewrite map_map. cbn [nth]. exact IH.
Qed.

Lemma select_ports_incl p table dir_0 ports :
  select_ports p table = ret (dir_0, ports) -> incl dir_0 ports.
Proof.
  unfold select_ports, ret. destruct (truthy_list p).
  - intros H. injection H as <- <-. intros x Hx.
    apply in_map_iff in Hx. destruct Hx as (i & <- & Hi).
    apply nth_In. now apply range_by_2_lt.
  - destruct (bi table) as [ | [p0 p1] rest]; [ discriminate | ].
    intros H. injection H as <- <-. intros x [<- | []]. now left.
Qed.

(** X6. Streams are only attached to ports of the benchmark: the ports
    given to [add_streams] are all among the ports of the configuration
    object. *)
Theorem attached_ports_in_config streams ps cfg :
  In (EvAddStreams streams ps)
     (fst (ndr_benchmark_test W server core_mask pdr iteration_duration
             ndr_results setup_name first_run_duration verbose pdr_error
             q_ful_resolution latency vm pkt_size fe_src_start_ip
             fe_src_stop_ip fe_dst_start_ip fe_dst_stop_ip drop_rate_interval
             output ports_list)) ->
  In (EvNdrBenchConfig cfg)
     (fst (ndr_benchmark_test W server core_mask pdr iteration_duration
             ndr_results setup_name first_run_duration verbose pdr_error
             q_ful_resolution latency vm pkt_size fe_src_start_ip
             fe_src_stop_ip fe_dst_start_ip fe_dst_stop_ip drop_rate_interval
             output ports_list)) ->
  incl ps (Cfg.ports cfg).
Proof.
  intros Ha Hc.
  destruct selected_ports_used
    as [[N _] | (table & dir_0 & ports & prim & _ & Sp & _ & A & C)].
  - exfalso. exact (N _ _ Ha).
  - destruct (A _ _ Ha) as [_ ->]. rewrite (C _ Hc). cbn [Cfg.ports].
    exact (select_ports_incl _ _ _ _ Sp).
Qed.

(** X7. With the latency flag off, the streams attached are exactly the
    streams the builder produced: nothing is appended. *)
Theorem no_latency_no_extra_stream streams ps :
  truthy latency = false ->
  In (EvAddStreams streams ps)
     (fst (ndr_benchmark_test W server core_mask pdr iteration_duration
             ndr_results setup_name first_run_duration verbose pdr_error
             q_ful_resolution latency vm pkt_size fe_src_start_ip
             fe_src_stop_ip fe_dst_start_ip fe_dst_stop_ip drop_rate_interval
             output ports_list)) ->
  snd (build_streams_for_bench W pkt_size vm fe_src_start_ip fe_src_stop_ip
         fe_dst_start_ip fe_dst_stop_ip 0) = Returned streams.
Proof.
  intros L Ha.
  destruct selected_ports_used
    as [[N _] | (table & dir_0 & ports & prim & _ & _ & B & A & _)].
  - exfalso. exact (N _ _ Ha).
  - destruct (A _ _ Ha) as [-> _]. now rewrite L.
Qed.

(** *** From the search on *)

Local Abbreviation the_tail cfg :=
  (passed <- find_ndr_block W cfg latency true ;;
   report_block W output passed).

Lemma tail_print_final_error cfg msg :
  ext_find_ndr W cfg = LOk tt ->
  truthy (ext_config_verbose W cfg) = true ->
  ext_print_final W latency = LRaise (LibSTLError msg) ->
  fst (the_tail cfg) =
  [EvFindNdr cfg; EvPrintFinal latency; EvPrint msg; EvDisconnect] /\
  exit_status (snd (the_tail cfg)) = 1.
Proof.
  intros Ef Ev Ep. rewrite find_ndr_block_eq. unfold search_events.
  rewrite Ef, Ev, Ep.
  destruct (ext_disconnect W) as [[] | [m | c m]]; split; reflexivity.
Qed.

Lemma tail_other_exception cfg c m :
  ext_find_ndr W cfg = LRaise (LibOther c m) ->
  fst (the_tail cfg) = [EvFindNdr cfg; EvDisconnect] /\
  (ext_disconnect W = LOk tt -> snd (the_tail cfg) = Raised (OtherException c m)).
Proof.
  intros Ef. rewrite find_ndr_block_eq. unfold search_events. rewrite Ef.
  destruct (ext_disconnect W) as [[] | e]; split; try reflexivity.
  discriminate.
Qed.


Lemma tail_after_disconnect cfg :
  exists mid after,
    fst (the_tail cfg) = (EvFindNdr cfg :: mid) ++ EvDisconnect :: after /\
    ~ In EvDisconnect mid /\
    (after = [] \/ after = [EvPrint passed_message; EvToJson]).
Proof.
  tail_cases W cfg latency output;
    match goal with
    | |- exists mid after, ?x :: ?l = _ /\ _ =>
        match l with
        | [EvDisconnect] => exists [], []
        | EvDisconnect :: ?a => exists [], a
        | [?y; EvDisconnect] => exists [y], []
        | ?y :: EvDisconnect :: ?a => exists [y], a
        | [?y; ?z; EvDisconnect] => exists [y; z], []
        | ?y :: ?z :: EvDisconnect :: ?a => exists [y; z], a
        end
    end;
    (split; [ reflexivity | ]);
    (split; [ cbn; intuition discriminate | auto ]).
Qed.

Lemma tail_to_json_error cfg e :
  In EvToJson (fst (the_tail cfg)) ->
  ext_to_json W = LRaise e ->
  snd (the_tail cfg) = Raised (exn_of_lib e) /\
  In (EvPrint passed_message) (fst (the_tail cfg)).
Proof.
  intros H Ej. revert H. tail_cases W cfg latency output; intros H;
    try (exfalso; cbn in H;
         repeat (destruct H as [H | H]; [ discriminate H | ]); exact H);
    try congruence;
    (split; [ congruence | cbn; tauto ]).
Qed.

Lemma tail_print_final_iff cfg :
  In (EvPrintFinal latency) (fst (the_tail cfg)) <->
  ext_find_ndr W cfg = LOk tt /\ truthy (ext_config_verbose W cfg) = true.
Proof.
  tail_cases W cfg latency output; split;
    try (intros [? ?]; first [ discriminate | cbn; tauto ]);
    intros H; try (split; reflexivity);
    exfalso; cbn in H;
    repeat (destruct H as [H | H]; [ discriminate H | ]); exact H.
Qed.

Lemma tail_exit_status cfg :
  (exit_status (snd (the_tail cfg)) = 0 /\ exists v, snd (the_tail cfg) = Returned v)
  \/ (exit_status (snd (the_tail cfg)) = 1 /\ exists e, snd (the_tail cfg) = Raised e).
Proof.
  tail_cases W cfg latency output;
    first [ left; split; [ reflexivity | eexists; reflexivity ]
          | right; split;
            [ first [ reflexivity
                    | match goal with
                      | |- context [exn_of_lib ?e] => destruct e; reflexivity
                      end ]
            | eexists; reflexivity ] ].
Qed.

(** X8. A client error raised while the results are printed (the verbose
    [print_final]) is handled like an error of the search: it is printed,
    [disconnect] is invoked and the run ends with exit status 1. *)
Theorem print_final_error_handled cfg msg :
  In (EvFindNdr cfg)
     (fst (ndr_benchmark_test W server core_mask pdr iteration_duration
             ndr_results setup_name first_run_duration verbose pdr_error
             q_ful_resolution latency vm pkt_size fe_src_start_ip
             fe_src_stop_ip fe_dst_start_ip fe_dst_stop_ip drop_rate_interval
             output ports_list)) ->
  ext_find_ndr W cfg = LOk tt ->
  truthy (ext_config_verbose W cfg) = true ->
  ext_print_final W latency = LRaise (LibSTLError msg) ->
  (exists pre,
      fst (ndr_benchmark_test W server core_mask pdr iteration_duration
             ndr_results setup_name first_run_duration verbose pdr_error
             q_ful_resolution latency vm pkt_size fe_src_start_ip
             fe_src_stop_ip fe_dst_start_ip fe_dst_stop_ip drop_rate_interval
             output ports_list)
      = pre ++ [EvFindNdr cfg; EvPrintFinal latency; EvPrint msg; EvDisconnect]) /\
  exit_status
    (snd (ndr_benchmark_test W server core_mask pdr iteration_duration
             ndr_results setup_name first_run_duration verbose pdr_error
             q_ful_resolution latency vm pkt_size fe_src_start_ip
             fe_src_stop_ip fe_dst_start_ip fe_dst_stop_ip drop_rate_interval
             output ports_list)) = 1.
Proof.
  intros H Ef Ev Ep. destruct (reach_tail cfg H) as (pre & _ & R).
  destruct (tail_print_final_error cfg msg Ef Ev Ep) as [Tt Ts].
  rewrite R. cbn [prepend fst snd]. rewrite Tt, Ts.
  split; [ eexists | ]; reflexivity.
Qed.

(** X9. An exception of the search that is not a client error is not
    printed: [disconnect] is invoked right after the search and the
    exception leaves the function. *)
Theorem other_exception_propagates cfg cls msg :
  In (EvFindNdr cfg)
     (fst (ndr_benchmark_test W server core_mask pdr iteration_duration
             ndr_results setup_name first_run_duration verbose pdr_error
             q_ful_resolution latency vm pkt_size fe_src_start_ip
             fe_src_stop_ip fe_dst_start_ip fe_dst_stop_ip drop_rate_interval
             output ports_list)) ->
  ext_find_ndr W cfg = LRaise (LibOther cls msg) ->
  (exists pre,
      fst (ndr_benchmark_test W server core_mask pdr iteration_duration
             ndr_results setup_name first_run_duration verbose pdr_error
             q_ful_resolution latency vm pkt_size fe_src_start_ip
             fe_src_stop_ip fe_dst_start_ip fe_dst_stop_ip drop_rate_interval
             output ports_list)
      = pre ++ [EvFindNdr cfg; EvDisconnect]) /\
  (ext_disconnect W = LOk tt ->
   snd (ndr_benchmark_test W server core_mask pdr iteration_duration
             ndr_results setup_name first_run_duration verbose pdr_error
             q_ful_resolution latency vm pkt_size fe_src_start_ip
             fe_src_stop_ip fe_dst_start_ip fe_dst_stop_ip drop_rate_interval
             output ports_list)
   = Raised (OtherException cls msg)).
Proof.
  intros H Ef. destruct (reach_tail cfg H) as (pre & _ & R).
  destruct (tail_other_exception cfg cls msg Ef) as [Tt Ts].
  rewrite R. cbn [prepend fst snd]. rewrite Tt.
  split; [ eexists; reflexivity | exact Ts ].
Qed.


(** X11. After [disconnect] a run either stops (an exception is on its
    way) or prints the passed message and serializes the result: whatever the
    search did, nothing else is printed after the disconnection, and the
    failed message in particular is not. *)
Theorem after_disconnect_only_passed cfg :
  In (EvFindNdr cfg)
     (fst (ndr_benchmark_test W server core_mask pdr iteration_duration
             ndr_results setup_name first_run_duration verbose pdr_error
             q_ful_resolution latency vm pkt_size fe_src_start_ip
             fe_src_stop_ip fe_dst_start_ip fe_dst_stop_ip drop_rate_interval
             output ports_list)) ->
  exists before after,
    fst (ndr_benchmark_test W server core_mask pdr iteration_duration
             ndr_results setup_name first_run_duration verbose pdr_error
             q_ful_resolution latency vm pkt_size fe_src_start_ip
             fe_src_stop_ip fe_dst_start_ip fe_dst_stop_ip drop_rate_interval
             output ports_list)
    = before ++ EvDisconnect :: after /\
    ~ In EvDisconnect before /\
    (after = [] \/ after = [EvPrint passed_message; EvToJson]).
Proof.
  intros H. destruct (reach_tail cfg H) as (pre & F & R).
  destruct (tail_after_disconnect cfg) as (mid & after & Tt & Nm & A).
  exists (pre ++ EvFindNdr cfg :: mid), after.
  rewrite R. cbn [prepend fst]. rewrite Tt, <- app_assoc.
  split; [ reflexivity | ]. split; [ | exact A ].
  intros D. apply in_app_or in D. destruct D as [D | [D | D]].
  - apply (setup_events_only _ _ F) in D. discriminate D.
  - discriminate D.
  - exact (Nm D).
Qed.

(** X12. The result is serialized whether JSON output was asked for or
    not: when [to_json] is reached and raises, the run ends with that
    exception for every [output], after the passed message was printed. *)
Theorem to_json_error_breaks_run e :
  In EvToJson
     (fst (ndr_benchmark_test W server core_mask pdr iteration_duration
             ndr_results setup_name first_run_duration verbose pdr_error
             q_ful_resolution latency vm pkt_size fe_src_start_ip
             fe_src_stop_ip fe_dst_start_ip fe_dst_stop_ip drop_rate_interval
             output ports_list)) ->
  ext_to_json W = LRaise e ->
  snd (ndr_benchmark_test W server core_mask pdr iteration_duration
             ndr_results setup_name first_run_duration verbose pdr_error
             q_ful_resolution latency vm pkt_size fe_src_start_ip
             fe_src_stop_ip fe_dst_start_ip fe_dst_stop_ip drop_rate_interval
             output ports_list)
  = Raised (exn_of_lib e) /\
  In (EvPrint passed_message)
     (fst (ndr_benchmark_test W server core_mask pdr iteration_duration
             ndr_results setup_name first_run_duration verbose pdr_error
             q_ful_resolution latency vm pkt_size fe_src_start_ip
             fe_src_stop_ip fe_dst_start_ip fe_dst_stop_ip drop_rate_interval
             output ports_list)).
Proof.
  intros H Ej.
  destruct run_cases as [[_ E] | [(_ & t & e' & E & F & _) | (_ & cfg & C)]].
  - rewrite E in H. cbn in H. destruct H as [H | []]. discriminate H.
  - rewrite E in H. cbn [fst] in H.
    apply (setup_events_only _ _ F) in H. discriminate H.
  - destruct (reach_tail cfg C) as (pre & F & R).
    rewrite R in H |- *. cbn [prepend fst snd] in H |- *.
    apply in_app_or in H. destruct H as [H | H].
    { apply (setup_events_only _ _ F) in H. discriminate H. }
    destruct (tail_to_json_error cfg e H Ej) as [Ts Tp].
    split; [ exact Ts | ]. apply in_or_app. now right.
Qed.

(** X13. The results are printed ([print_final]) exactly in the runs whose
    search returned and whose bench configuration is verbose. *)
Theorem print_final_iff_verbose cfg :
  In (EvFindNdr cfg)
     (fst (ndr_benchmark_test W server core_mask pdr iteration_duration
             ndr_results setup_name first_run_duration verbose pdr_error
             q_ful_resolution latency vm pkt_size fe_src_start_ip
             fe_src_stop_ip fe_dst_start_ip fe_dst_stop_ip drop_rate_interval
             output ports_list)) ->
  (In (EvPrintFinal latency)
      (fst (ndr_benchmark_test W server core_mask pdr iteration_duration
             ndr_results setup_name first_run_duration verbose pdr_error
             q_ful_resolution latency vm pkt_size fe_src_start_ip
             fe_src_stop_ip fe_dst_start_ip fe_dst_stop_ip drop_rate_interval
             output ports_list))
   <-> ext_find_ndr W cfg = LOk tt /\ truthy (ext_config_verbose W cfg) = true).
Proof.
  intros H. destruct (reach_tail cfg H) as (pre & F & R).
  rewrite R. cbn [prepend fst]. rewrite <- (tail_print_final_iff cfg).
  split.
  - intros P. apply in_app_or in P. destruct P as [P | P]; [ | exact P ].
    apply (setup_events_only _ _ F) in P. discriminate P.
  - intros P. apply in_or_app. now right.
Qed.

(** The exit status of a run is 0 when the function returns and 1 when an
    exception leaves it. *)
Lemma run_exit_status :
  (exit_status (snd the_run) = 0 /\ exists v, snd the_run = Returned v) \/
  (exit_status (snd the_run) = 1 /\ exists e, snd the_run = Raised e).
Proof.
  destruct run_cases as [[_ E] | [(_ & t & e & E & _ & X) | (_ & cfg & C)]].
  - left. rewrite E. split; [ reflexivity | eexists; reflexivity ].
  - right. rewrite E. split; [ exact X | eexists; reflexivity ].
  - destruct (reach_tail cfg C) as (pre & _ & R). rewrite R.
    cbn [prepend snd]. exact (tail_exit_status cfg).
Qed.

(** *** Runs computed from the answers *)

(** X14. Without an explicit port list (absent or empty), a port map with
    no bidirectional pair ends the run at the selection with an index error:
    the client is connected, the ports are reset and mapped, and nothing
    else is done. *)
Theorem no_bidirectional_pair_raises table :
  truthy_list ports_list = false ->
  ext_STLClient W server = LOk tt ->
  ext_connect W = LOk tt ->
  ext_reset W = LOk tt ->
  ext_stl_map_ports W = LOk table ->
  bi table = [] ->
  ndr_benchmark_test W server core_mask pdr iteration_duration ndr_results
    setup_name first_run_duration verbose pdr_error q_ful_resolution latency
    vm pkt_size fe_src_start_ip fe_src_stop_ip fe_dst_start_ip fe_dst_stop_ip
    drop_rate_interval output ports_list
  = ([EvSTLClient server; EvConnect; EvReset; EvMapPorts],
     Raised (IndexError "list index out of range")).
Proof.
  intros T E1 E2 E3 E4 B. unfold ndr_benchmark_test.
  rewrite T. cbn [andb].
  rewrite E1, bind_call_LOk, E2, bind_call_LOk, E3, bind_call_LOk, E4,
    bind_call_LOk, !prepend_prepend.
  rewrite (select_ports_auto _ _ T), B. reflexivity.
Qed.

(** X15. With a falsy [vm] no run attaches streams or invokes the search;
    when the setup calls answer, the run ends after the port mapping with
    the unbound-local error of [build_streams_for_bench], the client still
    connected. *)
Theorem falsy_vm_stops_after_mapping :
  truthy vm = false ->
  (forall streams ps,
      ~ In (EvAddStreams streams ps)
          (fst (ndr_benchmark_test W server core_mask pdr iteration_duration
                ndr_results setup_name first_run_duration verbose pdr_error
                q_ful_resolution latency vm pkt_size fe_src_start_ip
                fe_src_stop_ip fe_dst_start_ip fe_dst_stop_ip
                drop_rate_interval output ports_list))) /\
  (forall cfg,
      ~ In (EvFindNdr cfg)
          (fst (ndr_benchmark_test W server core_mask pdr iteration_duration
                ndr_results setup_name first_run_duration verbose pdr_error
                q_ful_resolution latency vm pkt_size fe_src_start_ip
                fe_src_stop_ip fe_dst_start_ip fe_dst_stop_ip
                drop_rate_interval output ports_list))) /\
  (forall table dir_0 ports,
      (forall l, ports_list = Some l -> Nat.odd (List.length l) = false) ->
      ext_STLClient W server = LOk tt ->
      ext_connect W = LOk tt ->
      ext_reset W = LOk tt ->
      ext_stl_map_ports W = LOk table ->
      select_ports ports_list table = ret (dir_0, ports) ->
      ndr_benchmark_test W server core_mask pdr iteration_duration ndr_results
    setup_name first_run_duration verbose pdr_error q_ful_resolution latency
    vm pkt_size fe_src_start_ip fe_src_stop_ip fe_dst_start_ip fe_dst_stop_ip
    drop_rate_interval output ports_list
      = ([EvSTLClient server; EvConnect; EvReset; EvMapPorts],
         Raised (UnboundLocalError "stl_bench"))).
Proof.
  intros V.
  assert (Early : forall ev, In ev (fst the_run) -> early_event ev).
  { destruct (setup_cases W server core_mask pdr iteration_duration ndr_results
                setup_name first_run_duration verbose pdr_error q_ful_resolution
                latency vm pkt_size fe_src_start_ip fe_src_stop_ip
                fe_dst_start_ip fe_dst_stop_ip drop_rate_interval output
                ports_list)
      as [(table & dir_0 & ports & r & prim & _ & _ & _ & V' & _) | E];
      [ congruence | exact E ]. }
  split; [ intros streams ps H; exact (Early _ H) | ].
  split; [ intros cfg H; exact (Early _ H) | ].
  intros table dir_0 ports Even E1 E2 E3 E4 Sp. unfold ndr_benchmark_test.
  rewrite (guard_false Even).
  rewrite E1, bind_call_LOk, E2, bind_call_LOk, E3, bind_call_LOk, E4,
    bind_call_LOk, !prepend_prepend.
  rewrite Sp. unfold ret at 1. rewrite bind_Returned.
  rewrite (build_streams_falsy W _ _ _ _ _ _ _ V). reflexivity.
Qed.

(** X16. When every call answers, the run is: the client, [connect],
    [reset], the port mapping, the streams built and attached to the
    transmit side, the configuration and the bench object, the search, the
    results printed if the bench configuration is verbose, [disconnect], the
    passed message and the serialization; the function returns the
    serialized result for [output == 'json'] and [None] otherwise. *)
Theorem successful_run table dir_0 ports r prim j cfg :
  answers_ok W ->
  (forall l, ports_list = Some l -> Nat.odd (List.length l) = false) ->
  ext_stl_map_ports W = LOk table ->
  select_ports ports_list table = ret (dir_0, ports) ->
  truthy vm = true ->
  ext_STLBench W = LOk r ->
  ext_get_streams W
    (overridden_range r fe_src_start_ip fe_src_stop_ip fe_dst_start_ip
       fe_dst_stop_ip) pkt_size vm 0 = LOk prim ->
  ext_to_json W = LOk j ->
  cfg = {| Cfg.ports := ports; Cfg.pkt_size := pkt_size; Cfg.vm := vm;
           Cfg.iteration_duration := iteration_duration;
           Cfg.q_ful_resolution := q_ful_resolution;
           Cfg.first_run_duration := first_run_duration;
           Cfg.pdr := pdr; Cfg.pdr_error := pdr_error;
           Cfg.ndr_results := ndr_results;
           Cfg.latency := latency; Cfg.core_mask := core_mask;
           Cfg.verbose := verbose;
           Cfg.drop_rate_interval := drop_rate_interval |} ->
  ndr_benchmark_test W server core_mask pdr iteration_duration ndr_results
    setup_name first_run_duration verbose pdr_error q_ful_resolution latency
    vm pkt_size fe_src_start_ip fe_src_stop_ip fe_dst_start_ip fe_dst_stop_ip
    drop_rate_interval output ports_list
  = ([EvSTLClient server; EvConnect; EvReset; EvMapPorts; EvSTLBench;
      EvGetStreams
        (overridden_range r fe_src_start_ip fe_src_stop_ip fe_dst_start_ip
           fe_dst_stop_ip) pkt_size vm 0;
      EvAddStreams (if truthy latency then prim ++ [s1] else prim) dir_0;
      EvNdrBenchConfig cfg; EvNdrBench cfg; EvFindNdr cfg]
     ++ (if truthy (ext_config_verbose W cfg) then [EvPrintFinal latency] else [])
     ++ [EvDisconnect; EvPrint passed_message; EvToJson],
     Returned (if eq_str output "json" then Some j else None)).
Proof.
  intros (A1 & A2 & A3 & A4 & A5 & A6 & A7 & A8 & A9) Even Em Sp V Eb Eg Ej ->.
  unfold ndr_benchmark_test. rewrite (guard_false Even).
  rewrite A1, bind_call_LOk, A2, bind_call_LOk, A3, bind_call_LOk, Em,
    bind_call_LOk, !prepend_prepend.
  rewrite Sp. unfold ret at 1. rewrite bind_Returned, prepend_prepend.
  rewrite (build_streams_returns W _ _ _ _ _ _ _ _ _ V Eb Eg).
  rewrite bind_Returned, prepend_prepend. cbn [fst snd app].
  rewrite A4, bind_call_LOk, A5, bind_call_LOk, A6, bind_call_LOk,
    !prepend_prepend.
  rewrite find_ndr_block_eq. unfold search_events, report_block.
  rewrite A7, A8, A9, Ej.
  destruct (truthy (ext_config_verbose W (the_config ports)));
    destruct (eq_str output "json"); reflexivity.
Qed.

End AllRuns.

(** ** Explicit port lists and the status of a parsed run *)

(** X17. For an explicit port list written pair by pair, the streams are
    attached to the first port of each pair and to no other port, and the
    configuration gets the whole list, whatever the port map says. *)
Theorem transmit_side_first_of_each_pair W
    server core_mask pdr iteration_duration ndr_results setup_name
    first_run_duration verbose pdr_error q_ful_resolution latency vm pkt_size
    fe_src_start_ip fe_src_stop_ip fe_dst_start_ip fe_dst_stop_ip
    drop_rate_interval output (pairs : list (Z * Z)) :
  pairs <> [] ->
  (forall streams ps,
      In (EvAddStreams streams ps)
         (fst (ndr_benchmark_test W server core_mask pdr iteration_duration
                 ndr_results setup_name first_run_duration verbose pdr_error
                 q_ful_resolution latency vm pkt_size fe_src_start_ip
                 fe_src_stop_ip fe_dst_start_ip fe_dst_stop_ip
                 drop_rate_interval output (Some (flatten_pairs pairs)))) ->
      ps = map fst pairs) /\
  (forall cfg,
      In (EvNdrBenchConfig cfg)
         (fst (ndr_benchmark_test W server core_mask pdr iteration_duration
                 ndr_results setup_name first_run_duration verbose pdr_error
                 q_ful_resolution latency vm pkt_size fe_src_start_ip
                 fe_src_stop_ip fe_dst_start_ip fe_dst_stop_ip
                 drop_rate_interval output (Some (flatten_pairs pairs)))) ->
      Cfg.ports cfg = flatten_pairs pairs).
Proof.
  intros Np.
  assert (Nl : flatten_pairs pairs <> []).
  { destruct pairs as [ | [a b] pairs]; [ congruence | discriminate ]. }
  destruct (selected_ports_used W server core_mask pdr iteration_duration
              ndr_results setup_name first_run_duration verbose pdr_error
              q_ful_resolution latency vm pkt_size fe_src_start_ip
              fe_src_stop_ip fe_dst_start_ip fe_dst_stop_ip drop_rate_interval
              output (Some (flatten_pairs pairs)))
    as [[Na Nc] | (table & dir_0 & ports & prim & _ & Sp & _ & A & C)].
  - split; [ intros streams ps H; destruct (Na _ _ H)
           | intros cfg H; destruct (Nc _ H) ].
  - rewrite (select_ports_explicit _ table Nl), dir_0_of_pairs in Sp.
    unfold ret in Sp. injection Sp as <- <-. split.
    + intros streams ps H. exact (proj2 (A _ _ H)).
    + intros cfg H. rewrite (C _ H). reflexivity.
Qed.

(** X18. Once the arguments are parsed, the call of lines 223-227 ends
    the interpreter with status 0 exactly when [ndr_benchmark_test] returns,
    the stop at an odd port list included, and with status 1 whenever an
    exception leaves it: the only [SystemExit] the function raises carries
    the code 1.  (What [parser.parse_args()] does before that belongs to
    [argparse] and is not part of the statement.) *)
Theorem parsed_run_status_zero_or_one W args :
  ((exists v, snd (run_tests W args) = Returned v) /\
   exit_status (snd (run_tests W args)) = 0) \/
  ((exists e, snd (run_tests W args) = Raised e) /\
   exit_status (snd (run_tests W args)) = 1 /\
   forall code, snd (run_tests W args) = Raised (SystemExit code) -> code = 1).
Proof.
  unfold run_tests.
  destruct (run_exit_status W (Args.server args) (Args.core_mask args)
              (Args.pdr args) (Args.iteration_duration args)
              (Args.ndr_results args) (Args.setup_name args)
              (Args.first_run_duration args) (Args.verbose args)
              (Args.pdr_error args) (Args.q_ful_resolution args)
              (Args.latency args) (Args.vm args) (Args.size args)
              (Args.fe_src_start_ip args) (Args.fe_src_stop_ip args)
              (Args.fe_dst_start_ip args) (Args.fe_dst_stop_ip args)
              (Args.drop_rate_interval args) (Args.output args)
              (Args.ports_list args)) as [[S0 R] | [S1 R]].
  - left. split; [ exact R | exact S0 ].
  - right. split; [ exact R | ]. split; [ exact S1 | ].
    intros code E. rewrite E in S1. exact S1.
Qed.

(** ** The further statements at concrete runs *)

Lemma ip_overrides_independent_witness :
  In (EvGetStreams (set_src_start default_ip_range (VStr "10.0.0.1"))
        (VInt 64) (VStr "none") 0)
     (fst (build_streams_for_bench loop_world (VInt 64) (VStr "none")
             (VStr "10.0.0.1") VNone VNone VNone 0)) /\
  (VInt 64 = VInt 64 /\ VStr "none" = VStr "none" /\ 0 = 0 /\
   exists r,
     ext_STLBench loop_world = LOk r /\
     VStr "10.0.0.1" = VStr "10.0.0.1" /\
     VStr "16.0.0.254" = src_end r /\
     VStr "48.0.0.1" = dst_start r /\
     VStr "48.0.0.254" = dst_end r).
Proof.
  assert (H : In (EvGetStreams (set_src_start default_ip_range (VStr "10.0.0.1"))
                    (VInt 64) (VStr "none") 0)
                 (fst (build_streams_for_bench loop_world (VInt 64) (VStr "none")
                         (VStr "10.0.0.1") VNone VNone VNone 0)))
    by (vm_compute; right; left; reflexivity).
  split; [ exact H | ].
  exact (ip_overrides_independent loop_world (VInt 64) (VStr "none")
           (VStr "10.0.0.1") VNone VNone VNone 0 _ _ _ _ H).
Defined.

Lemma setup_error_not_handled_witness :
  (forall l, @None (list Z) = Some l -> Nat.odd (List.length l) = false) /\
  (forall cfg,
      ~ In (EvFindNdr cfg) (fst (run_tests refused_world Args.defaults))) /\
  exists t e,
    run_tests refused_world Args.defaults = (t, Raised e) /\
    exit_status (@Raised (option string) e) = 1 /\
    (forall text, ~ In (EvPrint text) t) /\
    ~ In EvDisconnect t.
Proof.
  assert (H1 : forall l, @None (list Z) = Some l ->
                         Nat.odd (List.length l) = false)
    by (intros l H; discriminate H).
  assert (H2 : forall cfg,
             ~ In (EvFindNdr cfg) (fst (run_tests refused_world Args.defaults)))
    by (intros cfg H; vm_compute in H;
        destruct H as [H | [H | []]]; discriminate H).
  split; [ exact H1 | ]. split; [ exact H2 | ].
  exact (on_args setup_error_not_handled refused_world Args.defaults None H1 H2).
Defined.

Lemma attached_ports_in_config_witness :
  In (EvAddStreams [bench_stream; s1] [0; 2])
     (fst (run_tests loop_world
             (Args.with_ports_list (Some [0; 1; 2; 3]) Args.defaults))) /\
  In (EvNdrBenchConfig (default_config_on [0; 1; 2; 3] (VBool true)))
     (fst (run_tests loop_world
             (Args.with_ports_list (Some [0; 1; 2; 3]) Args.defaults))) /\
  incl [0; 2] [0; 1; 2; 3].
Proof.
  assert (H1 : In (EvAddStreams [bench_stream; s1] [0; 2])
                  (fst (run_tests loop_world
                          (Args.with_ports_list (Some [0; 1; 2; 3])
                             Args.defaults))))
    by (vm_compute; do 6 right; left; reflexivity).
  assert (H2 : In (EvNdrBenchConfig (default_config_on [0; 1; 2; 3] (VBool true)))
                  (fst (run_tests loop_world
                          (Args.with_ports_list (Some [0; 1; 2; 3])
                             Args.defaults))))
    by (vm_compute; do 7 right; left; reflexivity).
  split; [ exact H1 | ]. split; [ exact H2 | ].
  exact (on_args attached_ports_in_config loop_world Args.defaults
           (Some [0; 1; 2; 3]) _ _ _ H1 H2).
Defined.

Lemma no_latency_no_extra_stream_witness :
  truthy (VBool false) = false /\
  In (EvAddStreams [bench_stream] [0])
     (fst (run_tests loop_world no_latency_args)) /\
  snd (build_streams_for_bench loop_world (VInt 64) (VStr "none")
         VNone VNone VNone VNone 0) = Returned [bench_stream].
Proof.
  assert (H : In (EvAddStreams [bench_stream] [0])
                 (fst (run_tests loop_world no_latency_args)))
    by (vm_compute; do 6 right; left; reflexivity).
  split; [ reflexivity | ]. split; [ exact H | ].
  exact (on_args no_latency_no_extra_stream loop_world no_latency_args None
           _ _ eq_refl H).
Defined.

Lemma print_final_error_handled_witness :
  In (EvFindNdr default_config)
     (fst (run_tests no_results_world Args.defaults)) /\
  ext_find_ndr no_results_world default_config = LOk tt /\
  truthy (ext_config_verbose no_results_world default_config) = true /\
  ext_print_final no_results_world (VBool true)
  = LRaise (LibSTLError "no results") /\
  (exists pre,
      fst (run_tests no_results_world Args.defaults)
      = pre ++ [EvFindNdr default_config; EvPrintFinal (VBool true);
                EvPrint "no results"; EvDisconnect]) /\
  exit_status (snd (run_tests no_results_world Args.defaults)) = 1.
Proof.
  assert (H : In (EvFindNdr default_config)
                 (fst (run_tests no_results_world Args.defaults)))
    by (vm_compute; do 9 right; left; reflexivity).
  split; [ exact H | ]. do 3 (split; [ reflexivity | ]).
  exact (on_args print_final_error_handled no_results_world Args.defaults None
           default_config "no results" H eq_refl eq_refl eq_refl).
Defined.

Lemma other_exception_propagates_witness :
  In (EvFindNdr default_config) (fst (run_tests crash_world Args.defaults)) /\
  ext_find_ndr crash_world default_config
  = LRaise (LibOther "ValueError" "bad rate") /\
  (exists pre,
      fst (run_tests crash_world Args.defaults)
      = pre ++ [EvFindNdr default_config; EvDisconnect]) /\
  (ext_disconnect crash_world = LOk tt ->
   snd (run_tests crash_world Args.defaults)
   = Raised (OtherException "ValueError" "bad rate")).
Proof.
  assert (H : In (EvFindNdr default_config)
                 (fst (run_tests crash_world Args.defaults)))
    by (vm_compute; do 9 right; left; reflexivity).
  split; [ exact H | ]. split; [ reflexivity | ].
  exact (on_args other_exception_propagates crash_world Args.defaults None
           default_config "ValueError" "bad rate" H eq_refl).
Defined.


Lemma after_disconnect_only_passed_witness :
  In (EvFindNdr default_config) (fst (run_tests loop_world Args.defaults)) /\
  exists before after,
    fst (run_tests loop_world Args.defaults) = before ++ EvDisconnect :: after /\
    ~ In EvDisconnect before /\
    (after = [] \/ after = [EvPrint passed_message; EvToJson]).
Proof.
  split; [ exact default_run_reaches_search | ].
  exact (on_args after_disconnect_only_passed loop_world Args.defaults None
           default_config default_run_reaches_search).
Defined.

Lemma to_json_error_breaks_run_witness :
  In EvToJson (fst (run_tests unserializable_world Args.defaults)) /\
  ext_to_json unserializable_world
  = LRaise (LibOther "TypeError" "not serializable") /\
  snd (run_tests unserializable_world Args.defaults)
  = Raised (OtherException "TypeError" "not serializable") /\
  In (EvPrint passed_message)
     (fst (run_tests unserializable_world Args.defaults)).
Proof.
  assert (H : In EvToJson (fst (run_tests unserializable_world Args.defaults)))
    by (vm_compute; do 12 right; left; reflexivity).
  split; [ exact H | ]. split; [ reflexivity | ].
  exact (on_args to_json_error_breaks_run unserializable_world Args.defaults
           None (LibOther "TypeError" "not serializable") H eq_refl).
Defined.

Lemma print_final_iff_verbose_witness :
  In (EvFindNdr default_config) (fst (run_tests loop_world Args.defaults)) /\
  (In (EvPrintFinal (VBool true)) (fst (run_tests loop_world Args.defaults))
   <-> ext_find_ndr loop_world default_config = LOk tt /\
       truthy (ext_config_verbose loop_world default_config) = true).
Proof.
  split; [ exact default_run_reaches_search | ].
  exact (on_args print_final_iff_verbose loop_world Args.defaults None
           default_config default_run_reaches_search).
Defined.

Lemma no_bidirectional_pair_raises_witness :
  truthy_list None = false /\
  ext_STLClient unmapped_world (VStr "127.0.0.1") = LOk tt /\
  ext_connect unmapped_world = LOk tt /\
  ext_reset unmapped_world = LOk tt /\
  ext_stl_map_ports unmapped_world = LOk unmapped_table /\
  bi unmapped_table = [] /\
  run_tests unmapped_world Args.defaults
  = ([EvSTLClient (VStr "127.0.0.1"); EvConnect; EvReset; EvMapPorts],
     Raised (IndexError "list index out of range")).
Proof.
  do 6 (split; [ reflexivity | ]).
  exact (on_args no_bidirectional_pair_raises unmapped_world Args.defaults None
           unmapped_table eq_refl eq_refl eq_refl eq_refl eq_refl eq_refl).
Defined.

Lemma falsy_vm_stops_after_mapping_witness :
  truthy (VStr EmptyString) = false /\
  (forall streams ps,
      ~ In (EvAddStreams streams ps) (fst (run_tests loop_world empty_fe_args))) /\
  (forall cfg,
      ~ In (EvFindNdr cfg) (fst (run_tests loop_world empty_fe_args))) /\
  (forall table dir_0 ports,
      (forall l, @None (list Z) = Some l -> Nat.odd (List.length l) = false) ->
      ext_STLClient loop_world (VStr "127.0.0.1") = LOk tt ->
      ext_connect loop_world = LOk tt ->
      ext_reset loop_world = LOk tt ->
      ext_stl_map_ports loop_world = LOk table ->
      select_ports None table = ret (dir_0, ports) ->
      run_tests loop_world empty_fe_args
      = ([EvSTLClient (VStr "127.0.0.1"); EvConnect; EvReset; EvMapPorts],
         Raised (UnboundLocalError "stl_bench"))).
Proof.
  split; [ reflexivity | ].
  exact (on_args falsy_vm_stops_after_mapping loop_world empty_fe_args None
           eq_refl).
Defined.

Lemma loop_world_answers_ok : answers_ok loop_world.
Proof. repeat split. Defined.

Lemma successful_run_witness :
  answers_ok loop_world /\
  (forall l, @None (list Z) = Some l -> Nat.odd (List.length l) = false) /\
  ext_stl_map_ports loop_world = LOk loop_table /\
  select_ports None loop_table = ret ([0], [0; 1]) /\
  truthy (VStr "none") = true /\
  ext_STLBench loop_world = LOk default_ip_range /\
  ext_get_streams loop_world
    (overridden_range default_ip_range VNone VNone VNone VNone)
    (VInt 64) (VStr "none") 0 = LOk [bench_stream] /\
  ext_to_json loop_world = LOk "{}" /\
  run_tests loop_world Args.defaults
  = ([EvSTLClient (VStr "127.0.0.1"); EvConnect; EvReset; EvMapPorts; EvSTLBench;
      EvGetStreams default_ip_range (VInt 64) (VStr "none") 0;
      EvAddStreams [bench_stream; s1] [0];
      EvNdrBenchConfig default_config; EvNdrBench default_config;
      EvFindNdr default_config]
     ++ [] ++ [EvDisconnect; EvPrint passed_message; EvToJson],
     Returned None).
Proof.
  assert (H : forall l, @None (list Z) = Some l ->
                        Nat.odd (List.length l) = false)
    by (intros l E; discriminate E).
  split; [ exact loop_world_answers_ok | ]. split; [ exact H | ].
  do 6 (split; [ reflexivity | ]).
  exact (on_args successful_run loop_world Args.defaults None loop_table
           [0] [0; 1] default_ip_range [bench_stream] "{}" default_config
           loop_world_answers_ok H eq_refl eq_refl eq_refl eq_refl eq_refl
           eq_refl eq_refl).
Defined.

Lemma transmit_side_first_of_each_pair_witness :
  [(0, 1); (2, 3)] <> [] /\
  (forall streams ps,
      In (EvAddStreams streams ps)
         (fst (run_tests loop_world
                 (Args.with_ports_list (Some [0; 1; 2; 3]) Args.defaults))) ->
      ps = [0; 2]) /\
  (forall cfg,
      In (EvNdrBenchConfig cfg)
         (fst (run_tests loop_world
                 (Args.with_ports_list (Some [0; 1; 2; 3]) Args.defaults))) ->
      Cfg.ports cfg = [0; 1; 2; 3]).
Proof.
  assert (H : [(0, 1); (2, 3)] <> []) by discriminate.
  split; [ exact H | ].
  exact (on_args transmit_side_first_of_each_pair loop_world Args.defaults
           [(0, 1); (2, 3)] H).
Defined.

Lemma empty_ports_list_as_none_witness :
  ext_STLClient loop_world (VStr "127.0.0.1") = LOk tt /\
  ext_connect loop_world = LOk tt /\
  ext_reset loop_world = LOk tt /\
  ext_stl_map_ports loop_world = LOk loop_table /\
  bi loop_table = (0, 1) :: [(2, 3)] /\
  truthy (VStr "none") = true /\
  ext_STLBench loop_world = LOk default_ip_range /\
  ext_get_streams loop_world
    (overridden_range default_ip_range VNone VNone VNone VNone)
    (VInt 64) (VStr "none") 0 = LOk [bench_stream] /\
  exists post,
    fst (run_tests loop_world (Args.with_ports_list (Some []) Args.defaults))
    = [EvSTLClient (VStr "127.0.0.1"); EvConnect; EvReset; EvMapPorts;
       EvSTLBench;
       EvGetStreams default_ip_range (VInt 64) (VStr "none") 0;
       EvAddStreams [bench_stream; s1] [0]] ++ post /\
    (ext_add_streams loop_world [bench_stream; s1] [0] = LOk tt ->
     exists post', post = EvNdrBenchConfig default_config :: post').
Proof.
  do 8 (split; [ reflexivity | ]).
  exact (proj2 (proj2 (proj2 (on_args empty_ports_list_as_none loop_world
                                Args.defaults)))
           loop_table 0 1 [(2, 3)] default_ip_range [bench_stream]
           eq_refl eq_refl eq_refl eq_refl eq_refl eq_refl eq_refl eq_refl).
Defined.
